(** * TimeBasedVerification: the helper scripts

    A shallow embedding of the two Python scripts of the repository,
    [BitwiseTheoryParameterGenerator.py] and [FileHeaders.py], and the
    properties of them that were checked.

    Python [str] values are lists of characters.  A character is a code
    point below 256, so a file of ASCII text has one character per byte.
    Python integers are [Z] wherever the source can reach a negative value
    ([str.find] returns [-1], [len(a) - len(b)], slice bounds). *)

From Stdlib Require Import ZArith Ascii String List Bool Lia.
From stdpp Require Import base option list gmap strings.

Local Open Scope Z_scope.

Abbreviation str := (list ascii).

(** A string literal of the source. *)
Definition py (s : string) : str := list_ascii_of_string s.

(** ** Built-in [str] methods used by the scripts *)
Module Py.

(** [str.isspace] on one character: the white space of Unicode that lies
    below code point 256. *)
Definition char_isspace (c : ascii) : bool :=
  let n := Z.of_N (N_of_ascii c) in
  ((9 <=? n) && (n <=? 13)) || ((28 <=? n) && (n <=? 32))
  || (n =? 133) || (n =? 160).

(** [s.isspace()]: at least one character, and all of them white space. *)
Definition isspace (s : str) : bool :=
  match s with
  | [] => false
  | _ => forallb char_isspace s
  end.

Fixpoint lstrip_by (f : ascii -> bool) (s : str) : str :=
  match s with
  | [] => []
  | c :: s' => if f c then lstrip_by f s' else s
  end.

Definition rstrip_by (f : ascii -> bool) (s : str) : str :=
  rev (lstrip_by f (rev s)).

(** [s.strip()] *)
Definition strip (s : str) : str := rstrip_by char_isspace (lstrip_by char_isspace s).

(** [s.startswith(p)] *)
Fixpoint startswith (s p : str) : bool :=
  match p, s with
  | [], _ => true
  | _ :: _, [] => false
  | a :: p', b :: s' => Ascii.eqb a b && startswith s' p'
  end.

(** Offset of the first occurrence of [sub] in [s]. *)
Fixpoint first_occurrence (s sub : str) : option nat :=
  if startswith s sub then Some 0%nat
  else match s with
       | [] => None
       | _ :: s' => S <$> first_occurrence s' sub
       end.

(** [s.find(sub)]: the offset, or [-1]. *)
Definition find (s sub : str) : Z :=
  match first_occurrence s sub with
  | Some i => Z.of_nat i
  | None => -1
  end.

(** [s.index(sub)]: the offset; [None] stands for [ValueError]. *)
Definition index (s sub : str) : option Z :=
  Z.of_nat <$> first_occurrence s sub.

(** [s.rfind(sub)] *)
Fixpoint last_occurrence (s sub : str) : option nat :=
  match s with
  | [] => if startswith s sub then Some 0%nat else None
  | _ :: s' =>
      match last_occurrence s' sub with
      | Some i => Some (S i)
      | None => if startswith s sub then Some 0%nat else None
      end
  end.

Definition rfind (s sub : str) : Z :=
  match last_occurrence s sub with
  | Some i => Z.of_nat i
  | None => -1
  end.

Definition len (s : str) : Z := Z.of_nat (length s).

(** A slice bound as Python clamps it: a negative bound counts from the
    end, and every bound is brought into [0 .. len]. *)
Definition clamp (n : Z) (i : Z) : Z :=
  if i <? 0 then Z.max (i + n) 0 else Z.min i n.

(** [s[a:b]] *)
Definition slice (s : str) (a b : Z) : str :=
  let lo := clamp (len s) a in
  let hi := clamp (len s) b in
  take (Z.to_nat (hi - lo)) (drop (Z.to_nat lo) s).

(** [s[a:]] *)
Definition slice_from (s : str) (a : Z) : str :=
  drop (Z.to_nat (clamp (len s) a)) s.

(** [s[:b]] *)
Definition slice_to (s : str) (b : Z) : str :=
  take (Z.to_nat (clamp (len s) b)) s.

(** [s[i]]; [None] stands for [IndexError]. *)
Definition getitem {A} (s : list A) (i : Z) : option A :=
  let n := Z.of_nat (length s) in
  if i <? 0 then (if i + n <? 0 then None else s !! Z.to_nat (i + n))
  else s !! Z.to_nat i.

(** [s.replace(old, new)] for a non-empty [old]: the occurrences are taken
    from the left and do not overlap.  [skip] counts the characters of a
    matched occurrence that are still to be dropped. *)
Fixpoint replace_go (old new : str) (skip : nat) (s : str) : str :=
  match s with
  | [] => []
  | c :: s' =>
      match skip with
      | S k => replace_go old new k s'
      | O =>
          if startswith s old
          then new ++ replace_go old new (length old - 1) s'
          else c :: replace_go old new 0 s'
      end
  end.

(** [s.replace(old, new)]; an empty [old] matches before every character
    and at the end. *)
Definition replace (s old new : str) : str :=
  match old with
  | [] => new ++ concat (map (fun c => c :: new) s)
  | _ => replace_go old new 0 s
  end.

(** [s.removeprefix(p)] *)
Definition removeprefix (s p : str) : str :=
  if startswith s p then drop (length p) s else s.

(** [sep.join(parts)] *)
Fixpoint join (sep : str) (parts : list str) : str :=
  match parts with
  | [] => []
  | [p] => p
  | p :: rest => p ++ sep ++ join sep rest
  end.

(** [list.index(x)]; [None] stands for [ValueError]. *)
Fixpoint list_index (l : list str) (x : str) : option nat :=
  match l with
  | [] => None
  | y :: l' => if bool_decide (y = x) then Some 0%nat else S <$> list_index l' x
  end.

(** [list.remove(x)] on a list that contains [x]: the first one goes. *)
Fixpoint list_remove (l : list str) (x : str) : list str :=
  match l with
  | [] => []
  | y :: l' => if bool_decide (y = x) then l' else y :: list_remove l' x
  end.

(** [l.__contains__(x)] *)
Definition contains (l : list str) (x : str) : bool := bool_decide (x ∈ l).

(** [range(a, b)] *)
Definition range (a b : Z) : list Z :=
  map (fun k => a + Z.of_nat k) (seq 0 (Z.to_nat (b - a))).

End Py.

(** ** BitwiseTheoryParameterGenerator.py *)
Module BitwiseTheoryParameterGenerator.

Definition bits : Z := 64.

(** [str(random.randint(0, 1))] for one draw of the generator. *)
Definition digit (draw : bool) : str := if draw then py "1" else py "0".

(** The first loop.  [draw i] is what [random.randint(0, 1)] returns in
    the iteration with index [i].  The state is
    [(raw_numerical, unsigned_numerical)].  The [i += 1] that ends the body
    is lost when [for] binds [i] again, here and in the second loop. *)
Definition digits_step (draw : Z -> bool) (st : str * str) (i : Z) : str * str :=
  let '(raw_numerical, unsigned_numerical) := st in
  let d := digit (draw i) in
  let raw_numerical := raw_numerical ++ d in
  let unsigned_numerical :=
    if i mod 8 =? 0 then unsigned_numerical ++ py "_" else unsigned_numerical in
  (raw_numerical, unsigned_numerical ++ d).

Definition digits_loop (draw : Z -> bool) : str * str :=
  foldl (digits_step draw) (py "", py "0b") (Py.range 0 bits).

(** The inner loop of the second part: [byte_array += raw_numerical[x]]. *)
Fixpoint byte_digits (raw_numerical : str) (xs : list Z) (byte_array : str)
  : option str :=
  match xs with
  | [] => Some byte_array
  | x :: xs' =>
      c ← Py.getitem raw_numerical x;
      byte_digits raw_numerical xs' (byte_array ++ [c])
  end.

(** The outer loop. [bits / 8] is exact for the widths the script names,
    so [int(bits / 8)] is the integer quotient. *)
Fixpoint bytes_loop (raw_numerical : str) (idxs : list Z) (byte_array : str)
  : option str :=
  match idxs with
  | [] => Some byte_array
  | i :: idxs' =>
      let byte_array := byte_array ++ py ", 0b_" in
      byte_array ←
        byte_digits raw_numerical
          (Py.range (bits - ((i + 1) * 8)) (bits - ((i + 1) * 8) + 8))
          byte_array;
      bytes_loop raw_numerical idxs' byte_array
  end.

(** The script: what it prints as the binary literal and as the byte
    array, or [None] when an index is out of range. *)
Definition generate (draw : Z -> bool) : option (str * str) :=
  let '(raw_numerical, unsigned_numerical) := digits_loop draw in
  byte_array ← bytes_loop raw_numerical (Py.range 0 (bits / 8)) (py "");
  Some (unsigned_numerical, Py.removeprefix byte_array (py ", ")).

End BitwiseTheoryParameterGenerator.

(** ** The outside world of FileHeaders.py *)

(** A regular file: its text and whether this process may read and write
    it.  The text is taken character by character, as [read] gives it and
    [write] stores it: for plain text, which is ASCII without carriage
    returns, these are the bytes of the file one for one. *)
Record file := File {
  contents : str;
  readable : bool;
  writable : bool
}.

(** The state the script acts on: the files by path, the paths of the
    file objects that were opened and on which [close()] has not been
    called, and what was printed, oldest first.  A file stands under the
    path it is opened by; two spellings of a path are two keys. *)
Record world := World {
  fs : gmap str file;
  open_files : list str;
  stdout : list str
}.

Inductive exn := FileNotFoundError | PermissionError | IndexError | ValueError.

#[global] Instance exn_eq_dec : EqDecision exn.
Proof. solve_decision. Defined.

(** How a computation ends: with a value, with an exception that nothing
    caught, or in [sys.exit()]. *)
Inductive outcome (A : Type) :=
| Val (a : A)
| Exc (e : exn)
| Exit.
Arguments Val {A} a.
Arguments Exc {A} e.
Arguments Exit {A}.

Definition M (A : Type) : Type := world -> outcome A * world.

Definition ret {A} (a : A) : M A := fun w => (Val a, w).

Definition bind {A B} (m : M A) (k : A -> M B) : M B :=
  fun w =>
    match m w with
    | (Val a, w') => k a w'
    | (Exc e, w') => (Exc e, w')
    | (Exit, w') => (Exit, w')
    end.

Notation "x <- m ;; k" := (bind m (fun x => k))
  (at level 100, m at next level, right associativity).
Notation "m ;;; k" := (bind m (fun _ => k))
  (at level 100, right associativity).

Definition raise {A} (e : exn) : M A := fun w => (Exc e, w).

(** [sys.exit()] *)
Definition sys_exit {A} : M A := fun w => (Exit, w).

(** [try: m  except e: handler] *)
Definition try_except {A} (m : M A) (e : exn) (handler : M A) : M A :=
  fun w =>
    match m w with
    | (Exc e', w') => if bool_decide (e' = e) then handler w' else (Exc e', w')
    | r => r
    end.

(** [print(line)] *)
Definition print (line : str) : M unit :=
  fun w => (Val tt, World (fs w) (open_files w) (stdout w ++ [line])).

(** [open(path, 'r')] and [open(path, 'r+')].  The file object is named by
    its path; it starts at offset 0. *)
Definition open (path : str) (update : bool) : M str :=
  fun w =>
    match fs w !! path with
    | None => (Exc FileNotFoundError, w)
    | Some f =>
        if readable f && (negb update || writable f)
        then (Val path, World (fs w) (path :: open_files w) (stdout w))
        else (Exc PermissionError, w)
    end.

(** [f.read()] from offset 0: the whole text. *)
Definition read (f : str) : M str :=
  fun w =>
    match fs w !! f with
    | Some x => (Val (contents x), w)
    | None => (Val [], w)
    end.

(** What a file holds after [data] is written at offset 0: the text
    behind the written part stays. *)
Definition overwrite (old data : str) : str := data ++ drop (length data) old.

(** [f.seek(0)] followed by [f.write(data)]. *)
Definition seek0_write (f : str) (data : str) : M unit :=
  fun w =>
    match fs w !! f with
    | Some x =>
        (Val tt,
         World (<[f := File (overwrite (contents x) data) (readable x) (writable x)]> (fs w))
               (open_files w) (stdout w))
    | None => (Val tt, w)
    end.

(** [f.close()] *)
Definition close (f : str) : M unit :=
  fun w => (Val tt, World (fs w) (Py.list_remove (open_files w) f) (stdout w)).

(** ** os.path, as posixpath has it *)
Module OsPath.

Definition sep : str := py "/".

Definition basename (p : str) : str :=
  Py.slice_from p (Py.rfind p sep + 1).

Definition dirname (p : str) : str :=
  let head := Py.slice_to p (Py.rfind p sep + 1) in
  if negb (bool_decide (head = []))
     && negb (bool_decide (head = concat (replicate (length head) sep)))
  then Py.rstrip_by (fun c => Ascii.eqb c "/"%char) head
  else head.

Definition join (a b : str) : str :=
  if Py.startswith b sep then b
  else if bool_decide (a = []) || Py.startswith (rev a) sep then a ++ b
  else a ++ sep ++ b.

End OsPath.

(** ** FileHeaders.py *)
Module FileHeaders.

Definition HEADER_START_TAG : str := py ">>>HEADER_START<<<".
Definition HEADER_END_TAG : str := py ">>>HEADER_END<<<".
Definition FOOTER_START_TAG : str := py ">>>FOOTER_START<<<".
Definition FOOTER_END_TAG : str := py ">>>FOOTER_END<<<".

Definition FILE_NAME_TAG : str := py "{FILE_NAME}".
Definition FOLDER_NAME_TAG : str := py "{FOLDER_NAME}".

Definition NO_HEADER_OR_FOOTER_MESSAGE : str :=
  py "No header nor footer given form either command line arguments or file.".

Definition NO_HEADER_OR_FOOTER : Z := 0.
Definition HAS_HEADER : Z := 1.
Definition HAS_FOOTER : Z := 2.
Definition HAS_HEADER_AND_FOOTER : Z := 4.

Definition nl : str := [ascii_of_nat 10].

(** *** Tags (lines 48 to 55) *)

(** What lines 52 to 55 do to the header, and likewise to the footer. *)
Definition substitute_tags (text file_name folder_name : str) : str :=
  Py.replace (Py.replace text FILE_NAME_TAG file_name) FOLDER_NAME_TAG folder_name.

(** Lines 48 to 55 on one of the two texts, with the two names given. *)
Definition apply_tags (text file_name folder_name : str) (disable_tags : bool) : str :=
  if negb disable_tags then substitute_tags text file_name folder_name else text.

(** *** Detection (lines 59 to 70) *)

(** The branch of the [if]/[elif] chain that is taken. *)
Inductive DetectionResult :=
| AlreadyPresent | FooterOnlyPresent | HeaderOnlyPresent | NeitherPresent.

Definition nonempty (s : str) : bool := negb (bool_decide (s = [])).

Definition detect (content tagged_header tagged_footer : str) : DetectionResult :=
  if (Py.find content tagged_header =? 0)
     && (Py.find content tagged_footer =? Py.len content - Py.len tagged_footer)
     && nonempty content
  then AlreadyPresent
  else if (Py.find content tagged_footer =? Py.len content - Py.len tagged_footer)
          && nonempty content && nonempty tagged_header
  then FooterOnlyPresent
  else if (Py.find content tagged_header =? 0) && nonempty tagged_footer
  then HeaderOnlyPresent
  else NeitherPresent.

(** What is written for each branch; [None] is the branch that writes
    nothing. *)
Definition new_content (content tagged_header tagged_footer : str) : option str :=
  match detect content tagged_header tagged_footer with
  | AlreadyPresent => None
  | FooterOnlyPresent => Some (tagged_header ++ content)
  | HeaderOnlyPresent => Some (content ++ tagged_footer)
  | NeitherPresent => Some (tagged_header ++ content ++ tagged_footer)
  end.

(** *** apply_footers_and_headers (lines 40 to 73) *)

(** The two lines the function prints. *)
Definition skipped_line (file_path : str) : str :=
  py "Skipped " ++ file_path ++ py ": Insufficiant Permissions ...".

Definition added_line (file_path : str) : str :=
  py "Added Header/Footer to " ++ file_path ++ py " ...".

Section Apply.

(** The two module-level variables the function reads. *)
Variables header footer : str.
Variables files paths : list str.
Variables disable_tags detect_header : bool.

(** [files[paths.index(file_path)]] *)
Definition file_name_of (file_path : str) : M str :=
  match Py.list_index paths file_path with
  | None => raise ValueError
  | Some i =>
      match files !! i with
      | None => raise IndexError
      | Some name => ret name
      end
  end.

(** Lines 48 to 55. *)
Definition tagged (file_path : str) : M (str * str) :=
  if negb disable_tags then
    name <- file_name_of file_path ;;
    let folder := OsPath.basename (OsPath.dirname file_path) in
    ret (substitute_tags header name folder, substitute_tags footer name folder)
  else ret (header, footer).

(** Lines 59 to 70; the result says whether the body goes on to line
    72 ([true]) or leaves through [continue] ([false]). *)
Definition insert (current_file content tagged_header tagged_footer : str) : M bool :=
  if detect_header then
    match new_content content tagged_header tagged_footer with
    | None => ret false
    | Some text => seek0_write current_file text ;;; ret true
    end
  else ret true.

(** The body of the loop for one path.  A path that cannot be opened for
    lack of permission is reported and left; a file that goes through
    [continue] on line 61 reaches neither line 72 nor line 73. *)
Definition process_file (file_path : str) : M unit :=
  opened <- try_except (f <- open file_path true ;; ret (Some f))
              PermissionError
              (print (skipped_line file_path) ;;; ret None) ;;
  match opened with
  | None => ret tt
  | Some current_file =>
      t <- tagged file_path ;;
      let '(tagged_header, tagged_footer) := t in
      text <- read current_file ;;
      let content := Py.strip text in
      go_on <- insert current_file content tagged_header tagged_footer ;;
      if go_on : bool then
        print (added_line file_path) ;;;
        close current_file
      else ret tt
  end.

Fixpoint for_each (todo : list str) : M unit :=
  match todo with
  | [] => ret tt
  | file_path :: rest => process_file file_path ;;; for_each rest
  end.

Definition apply_footers_and_headers : M unit := for_each paths.

End Apply.

(** *** The header file (lines 139 to 167) *)

(** The module-level variables the later lines work on. *)
Record globals := Globals {
  header : str;
  footer : str;
  has_header_footer : Z
}.

(** The right-hand sides of lines 150 and 155; [None] is [ValueError]. *)
Definition between (content start_tag end_tag : str) : option str :=
  i ← Py.index content start_tag;
  j ← Py.index content end_tag;
  Some (Py.slice content (i + Py.len start_tag + 1) (j - 1)).

(** Lines 149 to 167 on the text of the header file; [None] is the
    branch that prints the message and calls [sys.exit()]. *)
Definition parse_header_file (content : str) (g : globals) : option globals :=
  let g :=
    match between content HEADER_START_TAG HEADER_END_TAG with
    | Some h => Globals h (footer g) (has_header_footer g)
    | None => Globals (header g) (footer g) HAS_FOOTER
    end in
  g ←
    match between content FOOTER_START_TAG FOOTER_END_TAG with
    | Some f => Some (Globals (header g) f (has_header_footer g))
    | None =>
        if has_header_footer g =? HAS_FOOTER then None
        else Some (Globals (header g) (footer g) HAS_HEADER)
    end;
  Some (if has_header_footer g =? -1
        then Globals (header g) (footer g) HAS_HEADER_AND_FOOTER
        else g).

(** *** White space (lines 172 to 183) *)

(** The body of [if args.whitespace != True]. *)
Definition clear_whitespace (g : globals) : option globals :=
  let g :=
    if Py.isspace (header g) then Globals [] (footer g) HAS_FOOTER else g in
  if Py.isspace (footer g) then
    if has_header_footer g =? HAS_FOOTER then None
    else Some (Globals (header g) [] HAS_HEADER)
  else Some g.

Definition whitespace_policy (whitespace : bool) (g : globals) : option globals :=
  if negb whitespace then clear_whitespace g else Some g.

(** *** The empty check (lines 186 to 200) *)
Definition empty_check (g : globals) : option globals :=
  if bool_decide (header g = []) && bool_decide (footer g = []) then None
  else
    let g :=
      if bool_decide (header g = []) then Globals (header g) (footer g) HAS_FOOTER
      else g in
    g ←
      (if bool_decide (footer g = []) then
         if has_header_footer g =? HAS_FOOTER then None
         else Some (Globals (header g) (footer g) HAS_HEADER)
       else Some g);
    Some (if has_header_footer g =? -1
          then Globals (header g) (footer g) HAS_HEADER_AND_FOOTER
          else g).

(** Lines 172 to 200 together. *)
Definition check_spec (whitespace : bool) (g : globals) : option globals :=
  g ← whitespace_policy whitespace g;
  empty_check g.

(** *** The script from line 139 on *)

Record arguments := Args {
  whitespace : bool;
  arg_disable_tags : bool;
  arg_detect_header : bool;
  top : str;
  bottom : str;
  directory : str;
  header_file : str
}.

(** A step that ends the run with the message when it has no result. *)
Definition or_exit (r : option globals) : M globals :=
  match r with
  | Some g => ret g
  | None => print NO_HEADER_OR_FOOTER_MESSAGE ;;; sys_exit
  end.

(** Lines 139 to 167. *)
Definition read_header_file (a : arguments) (g : globals) : M globals :=
  if nonempty (header_file a) then
    current_file <-
      try_except (open (header_file a) false)
        FileNotFoundError
        (print (py "file " ++ header_file a ++ py " not found.") ;;; sys_exit) ;;
    content <- read current_file ;;
    or_exit (parse_header_file content g)
  else ret g.

(** Lines 203 to 213. *)
Definition preview (g : globals) : M unit :=
  if has_header_footer g =? HAS_HEADER_AND_FOOTER then
    print (py "HEADER:" ++ nl ++ header g) ;;;
    print (py "FOOTER:" ++ nl ++ footer g)
  else if has_header_footer g =? HAS_HEADER then
    print (py "HEADER:" ++ nl ++ header g) ;;;
    print (py "FOOTER:" ++ nl ++ py "No footer given.")
  else if has_header_footer g =? HAS_FOOTER then
    print (py "HEADER:" ++ nl ++ py "No header given.") ;;;
    print (py "FOOTER" ++ nl ++ footer g)
  else ret tt.

(** Lines 215 to 218. *)
Definition add_newlines (g : globals) : globals :=
  Globals (if nonempty (header g) then header g ++ nl else header g)
          (if nonempty (footer g) then nl ++ footer g else footer g)
          (has_header_footer g).

(** [yn.lower() != 'y' and yn != ''] *)
Definition declined (yn : str) : bool :=
  negb (bool_decide (yn = py "y") || bool_decide (yn = py "Y"))
  && nonempty yn.

(** [if l.__contains__(x): l.remove(x)] *)
Definition discard (l : list str) (x : str) : list str :=
  if Py.contains l x then Py.list_remove l x else l.

(** Lines 224 to 240: [script] is [os.path.basename(sys.argv[0])]. *)
Definition own_files_removed (a : arguments) (script : str) (files paths : list str)
  : list str * list str :=
  let files := discard files script in
  let files := discard files (header_file a) in
  let paths := discard paths script in
  let paths := discard paths (header_file a) in
  let paths := discard paths (OsPath.join (directory a) script) in
  let paths := discard paths (OsPath.join (directory a) (header_file a)) in
  (files, paths).

(** The script from line 139 to its end.  [files] and [paths] are the
    lists of lines 127 to 130, [yn] is the answer to the second
    question. *)
Definition main (a : arguments) (script : str) (files paths : list str) (yn : str)
  : M unit :=
  g <- read_header_file a (Globals (top a) (bottom a) (-1)) ;;
  g <- or_exit (whitespace_policy (whitespace a) g) ;;
  g <- or_exit (empty_check g) ;;
  preview g ;;;
  let g := add_newlines g in
  if declined yn then sys_exit
  else
    let '(files, paths) := own_files_removed a script files paths in
    apply_footers_and_headers (header g) (footer g) files paths
      (arg_disable_tags a) (arg_detect_header a).

(** *** The listing (lines 100 to 137) *)

(** What the scan finds: [os.walk] gives the directories, each with the
    names of its files, [os.scandir] gives the names in one directory.
    [Walk] is the branch of [args.recursive]. *)
Inductive scan :=
| Walk (found : list (str * list str))
| Scandir (names : list str).

(** Lines 100 to 112: [(files, paths)]. *)
Definition scanned (s : scan) : list str * list str :=
  match s with
  | Walk found =>
      ([[]] ++ flat_map snd found,
       [[]] ++ flat_map (fun d => map (OsPath.join d.1) d.2) found)
  | Scandir names => ([[]] ++ names, [[]] ++ names)
  end.

(** The test of lines 121 and 124. *)
Definition extension_matches (extension name : str) : Prop :=
  Py.slice_from name (Py.len name - Py.len extension) = extension.

#[global] Instance extension_matches_dec extension name :
  Decision (extension_matches extension name).
Proof. unfold extension_matches. apply _. Defined.

(** Lines 114 to 130 for one of the two lists: the names that pass the
    test are put behind [''], and the first [''] is taken out again. *)
Definition keep_extension (extension : str) (names : list str) : list str :=
  Py.list_remove ([[]] ++ filter (extension_matches extension) names) [].

Definition listing (extension : str) (s : scan) : list str * list str :=
  let '(files, paths) := scanned s in
  (keep_extension extension files, keep_extension extension paths).

(** Lines 132 and 133. *)
Fixpoint print_all (lines : list str) : M unit :=
  match lines with
  | [] => ret tt
  | line :: rest => print line ;;; print_all rest
  end.

(** The script from line 95 to its end: [extension] is [args.extension],
    [yn1] and [yn2] are the answers to the two questions. *)
Definition file_headers (a : arguments) (extension : str) (s : scan)
    (script : str) (yn1 yn2 : str) : M unit :=
  let '(files, paths) := listing extension s in
  print_all paths ;;;
  if declined yn1 then sys_exit
  else main a script files paths yn2.

End FileHeaders.

(** ** Vocabulary of the properties *)

Import FileHeaders.

(** The digits of a printed binary literal: the text behind [0b] without
    the underscores. *)
Definition underscore : ascii := "_"%char.

Definition literal_digits (literal : str) : str :=
  filter (fun c => c <> underscore) (drop 2 literal).

(** The digits the generator drew, in the order of drawing. *)
Definition drawn_digits (draw : Z -> bool) : str :=
  flat_map (fun i => BitwiseTheoryParameterGenerator.digit (draw i))
    (Py.range 0 BitwiseTheoryParameterGenerator.bits).

(** [sub] occurs in [s]. *)
Definition occurs (sub s : str) : Prop := exists pre post, s = pre ++ sub ++ post.

(** Both markers of a block are in the text of the header file. *)
Definition markers_present (content start_tag end_tag : str) : Prop :=
  occurs start_tag content /\ occurs end_tag content.

(** The text of the header file holds a block between two marker lines:
    the start marker begins a line and ends it, the end marker begins the
    line behind the block, and neither marker is met earlier in the file.
    [text] is what stands strictly between the two lines: nothing when the
    lines follow each other, and else the lines in between up to their last
    line break. *)
Definition block_on_own_lines (content start_tag end_tag text : str) : Prop :=
  exists pre body post,
    content = pre ++ start_tag ++ nl ++ body ++ end_tag ++ post
    /\ (body = [] /\ text = [] \/ body = text ++ nl)
    /\ (pre = [] \/ exists u, pre = u ++ nl)
    /\ Py.find pre start_tag = -1
    /\ Py.find (pre ++ start_tag ++ nl ++ body) end_tag = -1.

(** No part holds the tag. *)
Definition free_of (tag : str) (parts : list str) : Prop :=
  Forall (fun p => Py.find p tag = -1) parts.

(** A header or footer after line 172 has dealt with white space. *)
Definition cleared (s : str) : str := if Py.isspace s then [] else s.

(** The world after one more printed line. *)
Definition printed (w : world) (line : str) : world :=
  World (fs w) (open_files w) (stdout w ++ [line]).

(** [m] leaves every file as it is. *)
Definition keeps_files {A} (m : M A) : Prop := forall w, fs (m w).2 = fs w.

(** [m] does not end in [sys.exit()]. *)
Definition never_exits {A} (m : M A) : Prop := forall w, (m w).1 <> Exit.

(** Whenever [m] ends in [sys.exit()], it has left every file as it was. *)
Definition exit_keeps_files {A} (m : M A) : Prop :=
  forall w, (m w).1 = Exit -> fs (m w).2 = fs w.

(** ** Sample inputs *)

(** The header [H] and the footer [F] as line 216 and line 218 leave
    them. *)
Definition sample_header : str := py "H" ++ nl.
Definition sample_footer : str := nl ++ py "F".

Definition a_txt : str := py "a.txt".
Definition locked_txt : str := py "locked.txt".
Definition hf_txt : str := py "hf.txt".

(** A directory with the one file [a.txt]. *)
Definition one_file (text : str) : world :=
  World {[ a_txt := File text true true ]} [] [].

(** [a.txt] next to a file that may not be written. *)
Definition two_files : world :=
  World {[ locked_txt := File (py "keep") true false;
           a_txt := File (py "body") true true ]} [] [].

(** A header file with a footer block of one blank and no header block. *)
Definition footer_only_file : str :=
  FOOTER_START_TAG ++ nl ++ py " " ++ nl ++ FOOTER_END_TAG ++ nl.

(** A header file with a header block of two lines. *)
Definition header_only_file : str :=
  HEADER_START_TAG ++ nl ++ py "line one" ++ nl ++ py "line two" ++ nl
  ++ HEADER_END_TAG ++ nl.

(** [-t Top -f hf.txt -o] *)
Definition top_and_file : arguments :=
  Args false false true (py "Top") (py "") (py "./") hf_txt.

(** [hf.txt] next to [a.txt]. *)
Definition with_header_file : world :=
  World {[ hf_txt := File footer_only_file true true;
           a_txt := File (py "body") true true ]} [] [].

(** A header file whose header is a comment with both tags. *)
Definition tagged_header_file : str :=
  HEADER_START_TAG ++ nl ++ py "// {FOLDER_NAME}/{FILE_NAME}" ++ nl
  ++ HEADER_END_TAG ++ nl.

(** [-r -o -e .txt -f ./hf.txt] *)
Definition recursive_with_file : arguments :=
  Args false false true (py "") (py "") (py "./") (py "./hf.txt").

(** What [os.walk('./')] finds in a directory with [a.txt], [hf.txt] and
    the folder [sub] with [x.txt]. *)
Definition walked : scan :=
  Walk [(py "./", [a_txt; hf_txt]); (py "./sub", [py "x.txt"])].

Definition walked_files : world :=
  World {[ py "./a.txt" := File (py "one") true true;
           py "./hf.txt" := File tagged_header_file true true;
           py "./sub/x.txt" := File (py "two") true true ]} [] [].

(** [-o -t '// {FOLDER_NAME}/{FILE_NAME}'] *)
Definition top_with_tags : arguments :=
  Args false false true (py "// {FOLDER_NAME}/{FILE_NAME}") (py "") (py "./") (py "").

(** ** Vocabulary of the further properties *)

(** [m] leaves the file at [q] as it is, or leaves it missing. *)
Definition keeps_file {A} (q : str) (m : M A) : Prop :=
  forall w, fs (m w).2 !! q = fs w !! q.

(** A file [f'] that has come out of [f]: the permissions are the same,
    it is not shorter, and it holds the text of [f] without the white
    space around it. *)
Definition grown_from (f f' : file) : Prop :=
  readable f' = readable f
  /\ writable f' = writable f
  /\ (length (contents f) <= length (contents f'))%nat
  /\ occurs (Py.strip (contents f)) (contents f').

(** The files of [w'] are those of [w], each grown from what it was. *)
Definition files_grown (w w' : world) : Prop :=
  forall q,
    match fs w !! q with
    | Some f => exists f', fs w' !! q = Some f' /\ grown_from f f'
    | None => fs w' !! q = None
    end.

(** The number that a text of binary digits stands for. *)
Definition binary_value (digits : str) : Z :=
  foldl (fun n c => 2 * n + (if Ascii.eqb c "1"%char then 1 else 0)) 0 digits.

(** The number that a sequence of bytes stands for, lowest byte first. *)
Fixpoint little_endian (bytes : list Z) : Z :=
  match bytes with
  | [] => 0
  | b :: rest => b + 256 * little_endian rest
  end.

(** The character between the parts of a path. *)
Definition slash : ascii := "/"%char.

Definition is_slash (c : ascii) : bool := Ascii.eqb c "/"%char.

(** A character of plain text: an ASCII character other than the carriage
    return.  A file of such characters has one byte for each character
    and no line ending that reading would change, so that [read] gives
    the text as it is stored and a text of [n] characters written at
    offset 0 takes the place of the first [n] characters. *)
Definition plain_char (c : ascii) : bool :=
  (N_of_ascii c <? 128)%N && negb (Ascii.eqb c "013"%char).

Definition plain (s : str) : Prop := Forall (fun c => plain_char c = true) s.

(** Every file holds plain text. *)
Definition plain_files (w : world) : Prop :=
  map_Forall (fun _ f => plain (contents f)) (fs w).

(** * Properties *)

(** Settles a decidable closed proposition by evaluation. *)
Ltac decided :=
  lazymatch goal with
  | |- ?P => apply (@bool_decide_unpack P _); vm_compute; exact I
  end.

(** ** [startswith], [find] and [index] *)

Section PyLemmas.
Implicit Types s sub p pre post old new : str.

Lemma startswith_prefix s p : Py.startswith s p = true <-> p `prefix_of` s.
Proof.
  revert s. induction p as [|a p IH]; intros [|b s]; simpl.
  - split; [intros _; apply prefix_nil | done].
  - split; [intros _; apply prefix_nil | done].
  - split; [done | intros H; by apply prefix_nil_inv in H].
  - rewrite andb_true_iff, IH. split.
    + intros [Hab Hp]. apply Ascii.eqb_eq in Hab as ->. by apply prefix_cons.
    + intros H. pose proof (prefix_cons_inv_1 _ _ _ _ H) as ->.
      apply prefix_cons_inv_2 in H. split; [apply Ascii.eqb_refl | done].
Qed.

Lemma startswith_app s p : Py.startswith (p ++ s) p = true.
Proof. apply startswith_prefix. by apply prefix_app_r. Qed.

Lemma startswith_nil_r s : Py.startswith s [] = true.
Proof. by destruct s. Qed.

Lemma first_occurrence_nil sub :
  Py.first_occurrence [] sub = if Py.startswith [] sub then Some 0%nat else None.
Proof. reflexivity. Qed.

Lemma first_occurrence_cons c s sub :
  Py.first_occurrence (c :: s) sub
  = if Py.startswith (c :: s) sub then Some 0%nat
    else S <$> Py.first_occurrence s sub.
Proof. reflexivity. Qed.

(** The first occurrence is an occurrence, and no offset before it is. *)
Lemma first_occurrence_Some s sub i :
  Py.first_occurrence s sub = Some i ->
  (i <= length s)%nat
  /\ Py.startswith (drop i s) sub = true
  /\ forall k, (k < i)%nat -> Py.startswith (drop k s) sub = false.
Proof.
  revert i. induction s as [|c s IH]; intros i;
    [rewrite first_occurrence_nil | rewrite first_occurrence_cons].
  - destruct (Py.startswith [] sub) eqn:E; [|done].
    intros [= <-]. split; [simpl; lia|]. split; [done|]. intros k Hk; lia.
  - destruct (Py.startswith (c :: s) sub) eqn:E.
    + intros [= <-]. split; [simpl; lia|]. split; [done|]. intros k Hk; lia.
    + destruct (Py.first_occurrence s sub) as [j|] eqn:Ej; [|done].
      intros [= <-]. destruct (IH j eq_refl) as (Hj & Hat & Hbefore).
      split; [simpl; lia|]. split; [done|].
      intros [|k] Hk; [done | apply Hbefore; lia].
Qed.

Lemma first_occurrence_None s sub :
  Py.first_occurrence s sub = None ->
  forall k, Py.startswith (drop k s) sub = false.
Proof.
  induction s as [|c s IH];
    [rewrite first_occurrence_nil | rewrite first_occurrence_cons].
  - destruct (Py.startswith [] sub) eqn:E; [done|].
    intros _ k. by rewrite drop_nil.
  - destruct (Py.startswith (c :: s) sub) eqn:E; [done|].
    destruct (Py.first_occurrence s sub) eqn:Ej; [done|].
    intros _ [|k]; [done | by apply IH].
Qed.

Lemma first_occurrence_at s sub i :
  (i <= length s)%nat ->
  Py.startswith (drop i s) sub = true ->
  (forall k, (k < i)%nat -> Py.startswith (drop k s) sub = false) ->
  Py.first_occurrence s sub = Some i.
Proof.
  intros Hi Hat Hbefore.
  destruct (Py.first_occurrence s sub) as [j|] eqn:E.
  - destruct (first_occurrence_Some _ _ _ E) as (_ & Hj & Hlt).
    destruct (Nat.lt_trichotomy i j) as [H|[->|H]]; [|done|].
    + rewrite (Hlt i H) in Hat. done.
    + rewrite (Hbefore j H) in Hj. done.
  - rewrite (first_occurrence_None _ _ E i) in Hat. done.
Qed.

(** [find] gives [-1] exactly for a text without an occurrence. *)
Lemma find_absent s sub :
  Py.find s sub = -1 <-> ~ occurs sub s.
Proof.
  unfold occurs, Py.find. destruct (Py.first_occurrence s sub) as [i|] eqn:E.
  - split; [lia|]. intros H. exfalso. apply H.
    destruct (first_occurrence_Some _ _ _ E) as (_ & Hat & _).
    apply startswith_prefix in Hat as [post Hpost].
    exists (take i s), post. by rewrite <- Hpost, take_drop.
  - split; [|done]. intros _ (pre & post & ->).
    pose proof (first_occurrence_None _ _ E (length pre)) as H.
    rewrite drop_app_length in H.
    by rewrite startswith_app in H.
Qed.

Lemma find_absent_None s sub : Py.find s sub = -1 <-> Py.first_occurrence s sub = None.
Proof. unfold Py.find. destruct (Py.first_occurrence s sub); split; (done || lia). Qed.

Lemma index_find s sub i : Py.index s sub = Some i <-> Py.find s sub = i /\ i <> -1.
Proof.
  unfold Py.index, Py.find. destruct (Py.first_occurrence s sub); simpl.
  - split; [intros [= <-]; lia | intros [-> _]; done].
  - split; [done | lia].
Qed.

(** A text that ends with a character foreign to [sub] cannot begin an
    occurrence of [sub] that runs past its end. *)
Lemma startswith_past_foreign u c sub rest :
  c ∉ sub ->
  Py.startswith (u ++ [c]) sub = false ->
  Py.startswith ((u ++ [c]) ++ rest) sub = false.
Proof.
  revert sub. induction u as [|a u IH]; intros sub Hc; simpl.
  - destruct sub as [|b sub]; [done|]. intros _.
    destruct (Ascii.eqb_spec b c) as [->|]; [|done].
    exfalso. apply Hc. left.
  - destruct sub as [|b sub]; [done|].
    destruct (Ascii.eqb b a); [|done]. simpl.
    apply IH. intros H. apply Hc. by right.
Qed.

Lemma first_occurrence_own_line pre c sub rest :
  c ∉ sub -> sub <> [] ->
  (pre = [] \/ exists u, pre = u ++ [c]) ->
  Py.first_occurrence pre sub = None ->
  Py.first_occurrence (pre ++ sub ++ rest) sub = Some (length pre).
Proof.
  intros Hc Hsub Hpre Hnone.
  apply first_occurrence_at.
  - rewrite length_app. lia.
  - rewrite drop_app_length. apply startswith_app.
  - intros k Hk. destruct Hpre as [->|[u ->]]; [simpl in Hk; lia|].
    pose proof (first_occurrence_None _ _ Hnone k) as Hk'.
    rewrite drop_app_le by lia.
    rewrite length_app in Hk. simpl in Hk.
    rewrite drop_app_le in Hk' |- * by lia.
    by apply startswith_past_foreign.
Qed.

End PyLemmas.

(** ** [replace] *)

Section ReplaceLemmas.
Implicit Types s sub old new : str.

(** The characters of a matched occurrence are dropped. *)
Lemma replace_go_skip old new u s :
  Py.replace_go old new (length u) (u ++ s) = Py.replace_go old new 0 s.
Proof. induction u as [|c u IH]; [by destruct s | exact IH]. Qed.

Lemma replace_go_match old new c s :
  Py.startswith (c :: s) old = true ->
  Py.replace_go old new 0 (c :: s)
  = new ++ Py.replace_go old new (length old - 1) s.
Proof. intros H. cbn [Py.replace_go]. by rewrite H. Qed.

Lemma replace_go_miss old new c s :
  Py.startswith (c :: s) old = false ->
  Py.replace_go old new 0 (c :: s) = c :: Py.replace_go old new 0 s.
Proof. intros H. cbn [Py.replace_go]. by rewrite H. Qed.

Lemma replace_go_occurrence old new s :
  old <> [] ->
  Py.replace_go old new 0 (old ++ s) = new ++ Py.replace_go old new 0 s.
Proof.
  intros Hold. destruct old as [|c old]; [done|].
  change ((c :: old) ++ s) with (c :: (old ++ s)).
  rewrite replace_go_match
    by (change (c :: (old ++ s)) with ((c :: old) ++ s); apply startswith_app).
  replace (length (c :: old) - 1)%nat with (length old) by (simpl; lia).
  by rewrite replace_go_skip.
Qed.

(** Up to the first occurrence nothing changes. *)
Lemma replace_go_before old new s i :
  (i <= length s)%nat ->
  (forall k, (k < i)%nat -> Py.startswith (drop k s) old = false) ->
  Py.replace_go old new 0 s = take i s ++ Py.replace_go old new 0 (drop i s).
Proof.
  revert s. induction i as [|i IH]; intros s Hi Hmiss; [done|].
  destruct s as [|c s]; [simpl in Hi; lia|].
  rewrite replace_go_miss by exact (Hmiss 0%nat ltac:(lia)).
  simpl. f_equal. apply IH; [simpl in Hi; lia|].
  intros k Hk. exact (Hmiss (S k) ltac:(lia)).
Qed.

Lemma replace_absent s old new :
  old <> [] -> Py.find s old = -1 -> Py.replace s old new = s.
Proof.
  intros Hold Hnone. apply find_absent_None in Hnone.
  destruct old as [|c old]; [done|]. unfold Py.replace.
  rewrite (replace_go_before _ _ s (length s)); [|done|].
  - by rewrite take_ge, drop_all, app_nil_r.
  - intros k _. by apply first_occurrence_None.
Qed.

Lemma replace_first s old new i :
  old <> [] ->
  Py.first_occurrence s old = Some i ->
  Py.replace s old new
  = take i s ++ new ++ Py.replace (drop (i + length old) s) old new.
Proof.
  intros Hold Hi.
  destruct (first_occurrence_Some _ _ _ Hi) as (Hle & Hat & Hbefore).
  assert (Hgo : forall t, Py.replace t old new = Py.replace_go old new 0 t)
    by (intros t; by destruct old).
  rewrite !Hgo, (replace_go_before _ _ s i Hle Hbefore).
  apply startswith_prefix in Hat as [rest Hrest].
  rewrite <- drop_drop, Hrest, drop_app_length.
  by rewrite replace_go_occurrence.
Qed.

Lemma absent_before_first s old i :
  old <> [] ->
  Py.first_occurrence s old = Some i ->
  Py.find (take i s) old = -1.
Proof.
  intros Hold Hi. apply find_absent. intros (pre & post & Heq).
  destruct (first_occurrence_Some _ _ _ Hi) as (Hle & _ & Hbefore).
  assert (Hlt : (length pre < i)%nat).
  { apply (f_equal length) in Heq.
    rewrite length_take, !length_app in Heq.
    destruct old; [done | simpl in Heq; lia]. }
  specialize (Hbefore _ Hlt).
  rewrite <- (take_drop i s), Heq, <- !app_assoc, drop_app_length in Hbefore.
  by rewrite startswith_app in Hbefore.
Qed.

(** Every text is a sequence of parts without [old], separated by the
    occurrences of [old] that [replace] exchanges for [new]. *)
Lemma replace_join s old new :
  old <> [] ->
  exists parts,
    parts <> []
    /\ s = Py.join old parts
    /\ Forall (fun p => Py.find p old = -1) parts
    /\ Py.replace s old new = Py.join new parts.
Proof.
  intros Hold. remember (length s) as n eqn:Hn.
  revert s Hn. induction (lt_wf n) as [n _ IH]. intros s ->.
  destruct (Py.first_occurrence s old) as [i|] eqn:Hi.
  - destruct (first_occurrence_Some _ _ _ Hi) as (Hle & Hat & Hbefore).
    pose proof Hat as Hpre. apply startswith_prefix in Hpre as [rest Hrest].
    assert (Hlen : (length rest < length s)%nat).
    { rewrite <- (take_drop i s), Hrest, !length_app.
      destruct old; [done | simpl; lia]. }
    destruct (IH _ Hlen rest eq_refl) as (parts & Hne & Hparts & Hfree & Hrep).
    assert (Hdrop : drop (i + length old) s = rest)
      by (by rewrite <- drop_drop, Hrest, drop_app_length).
    destruct parts as [|p parts]; [done|].
    exists (take i s :: p :: parts). split; [done|]. split; [|split].
    + rewrite <- (take_drop i s) at 1. by rewrite Hrest, Hparts.
    + constructor; [|done]. by apply absent_before_first.
    + by rewrite (replace_first _ _ _ _ Hold Hi), Hdrop, Hrep.
  - exists [s]. split; [done|]. split; [done|]. split.
    + constructor; [|done]. by apply find_absent_None.
    + apply replace_absent; [done | by apply find_absent_None].
Qed.
End ReplaceLemmas.

(** ** Tags that do not overlap themselves *)

Section TagLemmas.
Implicit Types s p u t new : str.

(** An occurrence that begins in [u] and is not inside [u] runs into what
    follows [u]. *)
Lemma startswith_overrun u c rest q :
  Py.startswith (u ++ c :: rest) q = true ->
  Py.startswith u q = true \/ exists q2, q = u ++ c :: q2.
Proof.
  revert q. induction u as [|a u IH]; intros [|b q]; simpl; try (by left).
  - intros H. apply andb_true_iff in H as [Hb _].
    apply Ascii.eqb_eq in Hb as ->. right. by exists q.
  - intros H. apply andb_true_iff in H as [Hb Hq].
    apply Ascii.eqb_eq in Hb as ->.
    destruct (IH _ Hq) as [Hin|[q2 ->]].
    + left. by rewrite Ascii.eqb_refl.
    + right. by exists q2.
Qed.

(** A tag whose first character does not come back in it is found in
    [p ++ tag ++ rest] right behind [p], when [p] is free of it. *)
Lemma first_occurrence_behind p c t rest :
  c ∉ t ->
  Py.find p (c :: t) = -1 ->
  Py.first_occurrence (p ++ (c :: t) ++ rest) (c :: t) = Some (length p).
Proof.
  intros Hc Hfree. apply find_absent_None in Hfree.
  apply first_occurrence_at.
  - rewrite length_app. lia.
  - rewrite drop_app_length. apply startswith_app.
  - intros k Hk. rewrite drop_app_le by lia.
    destruct (Py.startswith (drop k p ++ (c :: t) ++ rest) (c :: t)) eqn:E; [|done].
    exfalso. apply startswith_overrun in E as [Hin|[q2 Hq2]].
    + by rewrite (first_occurrence_None _ _ Hfree k) in Hin.
    + destruct (drop k p) as [|a u] eqn:Hu.
      * apply (f_equal length) in Hu. rewrite length_drop in Hu. simpl in Hu. lia.
      * injection Hq2 as _ ->. apply Hc.
        apply elem_of_app. right. left.
Qed.

(** [replace] on a text given by its parts: every separating tag is
    exchanged, the parts stay. *)
Lemma replace_join_parts c t new parts :
  c ∉ t ->
  Forall (fun p => Py.find p (c :: t) = -1) parts ->
  Py.replace (Py.join (c :: t) parts) (c :: t) new = Py.join new parts.
Proof.
  intros Hc. induction parts as [|p [|q parts] IH]; intros Hfree.
  - reflexivity.
  - apply replace_absent; [done|]. by inversion Hfree.
  - inversion Hfree as [|? ? Hp Hrest]; subst.
    change (Py.join (c :: t) (p :: q :: parts))
      with (p ++ (c :: t) ++ Py.join (c :: t) (q :: parts)).
    rewrite (replace_first _ _ _ (length p)); [|done|by apply first_occurrence_behind].
    rewrite take_app_length.
    rewrite <- drop_drop, drop_app_length, drop_app_length.
    by rewrite IH.
Qed.

End TagLemmas.

(** ** The header file *)

Section HeaderFile.

Lemma index_None content tag : Py.index content tag = None <-> ~ occurs tag content.
Proof.
  rewrite <- find_absent, find_absent_None. unfold Py.index.
  destruct (Py.first_occurrence content tag); split; done.
Qed.

Lemma index_Some content tag i : Py.index content tag = Some i -> occurs tag content.
Proof.
  unfold Py.index. destruct (Py.first_occurrence content tag) as [k|] eqn:Hk; [|done].
  intros _. destruct (first_occurrence_Some _ _ _ Hk) as (_ & Hat & _).
  apply startswith_prefix in Hat as [post Hpost].
  exists (take k content), post. by rewrite <- Hpost, take_drop.
Qed.

Lemma between_None content start_tag end_tag :
  between content start_tag end_tag = None
  <-> ~ markers_present content start_tag end_tag.
Proof.
  unfold between, markers_present.
  destruct (Py.index content start_tag) as [i|] eqn:Hi; simpl.
  - destruct (Py.index content end_tag) as [j|] eqn:Hj; simpl.
    + split; [done|]. intros H. exfalso. apply H. eauto using index_Some.
    + apply index_None in Hj. split; [tauto | done].
  - apply index_None in Hi. split; [tauto | done].
Qed.

Lemma slice_middle (a b c : str) :
  Py.slice (a ++ b ++ c) (Py.len a) (Py.len a + Py.len b) = b.
Proof.
  unfold Py.slice, Py.clamp, Py.len. rewrite !length_app.
  destruct (Z.ltb_spec (Z.of_nat (length a)) 0); [lia|].
  destruct (Z.ltb_spec (Z.of_nat (length a) + Z.of_nat (length b)) 0); [lia|].
  rewrite !Z.min_l by lia.
  replace (Z.to_nat _) with (length b) by lia.
  rewrite Nat2Z.id, drop_app_length. by rewrite take_app_length.
Qed.

Lemma slice_backwards (s : str) (a b : Z) : 0 <= b <= a -> Py.slice s a b = [].
Proof.
  intros Hab. unfold Py.slice, Py.clamp.
  destruct (Z.ltb_spec a 0); [lia|]. destruct (Z.ltb_spec b 0); [lia|].
  replace (Z.to_nat _) with 0%nat by lia. reflexivity.
Qed.

Lemma between_block content start_tag end_tag text :
  "010"%char ∉ start_tag -> "010"%char ∉ end_tag ->
  start_tag <> [] -> end_tag <> [] ->
  block_on_own_lines content start_tag end_tag text ->
  between content start_tag end_tag = Some text.
Proof.
  intros Hs He Hsne Hene (pre & body & post & -> & Hbody & Hpre & Hns & Hne).
  unfold between.
  assert (Hi : Py.index (pre ++ start_tag ++ nl ++ body ++ end_tag ++ post)
                 start_tag = Some (Py.len pre)).
  { unfold Py.index.
    rewrite (first_occurrence_own_line pre "010"%char); try done.
    by apply find_absent_None. }
  assert (Hj : Py.index (pre ++ start_tag ++ nl ++ body ++ end_tag ++ post)
                 end_tag = Some (Py.len (pre ++ start_tag ++ nl ++ body))).
  { unfold Py.index.
    replace (pre ++ start_tag ++ nl ++ body ++ end_tag ++ post)
      with ((pre ++ start_tag ++ nl ++ body) ++ end_tag ++ post)
      by (by rewrite <- !app_assoc).
    rewrite (first_occurrence_own_line _ "010"%char); try done.
    - right. destruct Hbody as [[-> _]| ->].
      + exists (pre ++ start_tag). by rewrite app_nil_r, <- !app_assoc.
      + exists (pre ++ start_tag ++ nl ++ text). by rewrite <- !app_assoc.
    - by apply find_absent_None. }
  rewrite Hi, Hj. cbn [mbind option_bind]. f_equal.
  destruct Hbody as [[-> ->]| ->].
  - apply slice_backwards. unfold Py.len. rewrite !length_app.
    change (length nl) with 1%nat. change (length (@nil ascii)) with 0%nat.
    clear. lia.
  - etransitivity;
      [|apply (slice_middle (pre ++ start_tag ++ nl) text (nl ++ end_tag ++ post))].
    f_equal.
    + by rewrite <- !app_assoc.
    + unfold Py.len. rewrite !length_app. change (length nl) with 1%nat. clear. lia.
    + unfold Py.len. rewrite !length_app. change (length nl) with 1%nat. clear. lia.
Qed.
End HeaderFile.

Lemma tags_on_one_line :
  ("010"%char ∉ HEADER_START_TAG) /\ ("010"%char ∉ HEADER_END_TAG)
  /\ ("010"%char ∉ FOOTER_START_TAG) /\ ("010"%char ∉ FOOTER_END_TAG).
Proof. repeat split; decided. Qed.

Lemma parse_header_file_cases content top bottom :
  parse_header_file content (Globals top bottom (-1))
  = match between content HEADER_START_TAG HEADER_END_TAG,
          between content FOOTER_START_TAG FOOTER_END_TAG with
    | Some h, Some f => Some (Globals h f HAS_HEADER_AND_FOOTER)
    | Some h, None => Some (Globals h bottom HAS_HEADER)
    | None, Some f => Some (Globals top f HAS_FOOTER)
    | None, None => None
    end.
Proof.
  unfold parse_header_file.
  by destruct (between content HEADER_START_TAG HEADER_END_TAG),
    (between content FOOTER_START_TAG FOOTER_END_TAG).
Qed.

(** C5: a block whose marker lines stand on their own lines is extracted
    as the text strictly between the two lines (empty when the lines follow
    each other), for the header and for the footer each on its own; a side that lacks one of its markers keeps the
    value it had and raises no error; and the parse ends the run with the
    message exactly when neither side has both its markers. *)
Theorem parse_header_file_blocks content top bottom :
  let g0 := Globals top bottom (-1) in
  (forall text,
      block_on_own_lines content HEADER_START_TAG HEADER_END_TAG text ->
      exists g, parse_header_file content g0 = Some g /\ header g = text)
  /\ (forall text,
      block_on_own_lines content FOOTER_START_TAG FOOTER_END_TAG text ->
      exists g, parse_header_file content g0 = Some g /\ footer g = text)
  /\ (forall g,
      parse_header_file content g0 = Some g ->
      (~ markers_present content HEADER_START_TAG HEADER_END_TAG -> header g = top)
      /\ (~ markers_present content FOOTER_START_TAG FOOTER_END_TAG -> footer g = bottom))
  /\ (parse_header_file content g0 = None
      <-> ~ markers_present content HEADER_START_TAG HEADER_END_TAG
          /\ ~ markers_present content FOOTER_START_TAG FOOTER_END_TAG).
Proof.
  destruct tags_on_one_line as (Hhs & Hhe & Hfs & Hfe).
  intros g0. unfold g0. rewrite parse_header_file_cases.
  pose proof (between_None content HEADER_START_TAG HEADER_END_TAG) as HN.
  pose proof (between_None content FOOTER_START_TAG FOOTER_END_TAG) as FN.
  pose proof (fun text => between_block content HEADER_START_TAG HEADER_END_TAG text
                Hhs Hhe ltac:(done) ltac:(done)) as HB.
  pose proof (fun text => between_block content FOOTER_START_TAG FOOTER_END_TAG text
                Hfs Hfe ltac:(done) ltac:(done)) as FB.
  destruct (between content HEADER_START_TAG HEADER_END_TAG) as [h|];
    destruct (between content FOOTER_START_TAG FOOTER_END_TAG) as [f|].
  all: split; [intros text Hb; apply HB in Hb; try done; injection Hb as <-; eauto|].
  all: split; [intros text Hb; apply FB in Hb; try done; injection Hb as <-; eauto|].
  all: split;
    [intros g [= <-]; split; intros Hn;
     first [done | by apply HN in Hn | by apply FN in Hn]|].
  all: split;
    [try done | intros [Hh Hf]; first [by apply HN in Hh | by apply FN in Hf | done]].
  intros _. split; [by apply HN | by apply FN].
Qed.

Lemma parse_header_file_blocks_witness :
  exists g,
    parse_header_file header_only_file (Globals [] [] (-1)) = Some g
    /\ header g = py "line one" ++ nl ++ py "line two".
Proof.
  apply (proj1 (parse_header_file_blocks header_only_file [] [])).
  exists [], (py "line one" ++ nl ++ py "line two" ++ nl), nl.
  split; [reflexivity|]. split; [by right|]. split; [by left|].
  split; vm_compute; reflexivity.
Defined.

(** The file format with both blocks. *)
Example parse_header_file_both_blocks :
  parse_header_file
    (HEADER_START_TAG ++ nl ++ py "// top" ++ nl ++ HEADER_END_TAG ++ nl
     ++ FOOTER_START_TAG ++ nl ++ py "// bottom" ++ nl ++ FOOTER_END_TAG ++ nl)
    (Globals [] [] (-1))
  = Some (Globals (py "// top") (py "// bottom") HAS_HEADER_AND_FOOTER).
Proof. reflexivity. Qed.

(** Marker lines that follow each other give an empty block. *)
Example parse_header_file_empty_block :
  parse_header_file
    (HEADER_START_TAG ++ nl ++ HEADER_END_TAG ++ nl) (Globals (py "Top") [] (-1))
  = Some (Globals [] [] HAS_HEADER).
Proof. reflexivity. Qed.

(** A file without any marker ends the run, whatever the command line
    gave. *)
Example parse_header_file_no_block :
  parse_header_file (py "just text") (Globals (py "Top") [] (-1)) = None.
Proof. reflexivity. Qed.

(** ** Tags *)

(** The replacement itself, for the two names that lines 52 to 55 look
    up: with tags enabled every [{FILE_NAME}] of a text is exchanged for
    [files[paths.index(file_path)]] and then every [{FOLDER_NAME}] for
    [basename(dirname(file_path))], the text between the tags staying as
    it is; every text is such a sequence of parts and tags; header and
    footer are treated each on its own; with tags disabled both stay as
    they are. *)
Theorem apply_tags_replaces_tags text file_name folder_name :
  apply_tags text file_name folder_name true = text
  /\ (forall parts parts',
        free_of FILE_NAME_TAG parts ->
        text = Py.join FILE_NAME_TAG parts ->
        free_of FOLDER_NAME_TAG parts' ->
        Py.join file_name parts = Py.join FOLDER_NAME_TAG parts' ->
        apply_tags text file_name folder_name false = Py.join folder_name parts')
  /\ (exists parts parts',
        free_of FILE_NAME_TAG parts
        /\ text = Py.join FILE_NAME_TAG parts
        /\ free_of FOLDER_NAME_TAG parts'
        /\ Py.join file_name parts = Py.join FOLDER_NAME_TAG parts')
  /\ (forall header footer files paths file_path i w,
        Py.list_index paths file_path = Some i ->
        files !! i = Some file_name ->
        OsPath.basename (OsPath.dirname file_path) = folder_name ->
        tagged header footer files paths false file_path w
        = (Val (apply_tags header file_name folder_name false,
                apply_tags footer file_name folder_name false), w))
  /\ (forall header footer files paths file_path w,
        tagged header footer files paths true file_path w = (Val (header, footer), w)).
Proof.
  assert (Hfile : "{"%char ∉ py "FILE_NAME}") by decided.
  assert (Hfolder : "{"%char ∉ py "FOLDER_NAME}") by decided.
  split; [reflexivity|]. split; [|split; [|split]].
  - intros parts parts' Hparts -> Hparts' Heq.
    unfold apply_tags, substitute_tags. cbn [negb].
    rewrite (replace_join_parts "{"%char (py "FILE_NAME}")) by done.
    rewrite Heq.
    by rewrite (replace_join_parts "{"%char (py "FOLDER_NAME}")).
  - destruct (replace_join text FILE_NAME_TAG file_name ltac:(done))
      as (parts & _ & Htext & Hfree & Hrep).
    destruct (replace_join (Py.join file_name parts) FOLDER_NAME_TAG folder_name
                ltac:(done))
      as (parts' & _ & Htext' & Hfree' & _).
    by exists parts, parts'.
  - intros header footer files paths file_path i w Hi Hname Hfolder'.
    unfold tagged, file_name_of. cbn [negb]. rewrite Hi, Hname.
    unfold bind, ret. by rewrite Hfolder'.
  - reflexivity.
Qed.

(** The example of the tags next to each other. *)
Example apply_tags_both :
  apply_tags (py "{FILE_NAME} and {FOLDER_NAME}") (py "a.txt") (py "src") false
  = py "a.txt and src".
Proof. reflexivity. Qed.

(** The folder name is put into the text that the file name has already
    been put into: a file name that holds the folder tag is changed with
    it. *)
Example apply_tags_in_sequence :
  apply_tags (py "{FILE_NAME}") (py "{FOLDER_NAME}.txt") (py "src") false
  = py "src.txt".
Proof. reflexivity. Qed.

Lemma apply_tags_replaces_tags_witness :
  apply_tags (py "{FILE_NAME} and {FOLDER_NAME}") (py "a.txt") (py "src") false
  = py "a.txt and src"
  /\ tagged (py "// {FILE_NAME}") (py "// {FOLDER_NAME}") [py "a.txt"] [py "./src/a.txt"]
       false (py "./src/a.txt") (one_file [])
     = (Val (py "// a.txt", py "// src"), one_file []).
Proof.
  pose proof (apply_tags_replaces_tags (py "{FILE_NAME} and {FOLDER_NAME}")
                (py "a.txt") (py "src")) as (_ & Hparts & _).
  pose proof (apply_tags_replaces_tags [] (py "a.txt") (py "src"))
    as (_ & _ & _ & Htagged & _).
  split.
  - apply (Hparts [py ""; py " and {FOLDER_NAME}"] [py "a.txt and "; py ""]).
    + repeat constructor.
    + reflexivity.
    + repeat constructor.
    + reflexivity.
  - apply (Htagged (py "// {FILE_NAME}") (py "// {FOLDER_NAME}") [py "a.txt"]
             [py "./src/a.txt"] (py "./src/a.txt") 0%nat (one_file []));
      reflexivity.
Defined.

(** C6: in the run [-r -o -e .txt -f ./hf.txt] over [a.txt], [hf.txt] and
    [sub/x.txt], with the header [// {FOLDER_NAME}/{FILE_NAME}], the file
    [sub/x.txt] gets the name of the header file in the place of
    [{FILE_NAME}]: line 234 takes [./hf.txt] out of [paths] and no line
    takes [hf.txt] out of [files], so that [files[paths.index(file_path)]]
    on lines 52 and 53 is the name one place before.  The file [a.txt]
    gets [.] in the place of [{FOLDER_NAME}]. *)
Theorem file_name_tag_takes_other_name :
  let '(r, w) :=
    file_headers recursive_with_file (py ".txt") walked (py "FileHeaders.py")
      (py "y") (py "y") walked_files in
  r = Val tt
  /\ contents <$> fs w !! py "./a.txt" = Some (py "// ./a.txt" ++ nl ++ py "one")
  /\ contents <$> fs w !! py "./sub/x.txt"
     = Some (py "// sub/hf.txt" ++ nl ++ py "two")
  /\ contents <$> fs w !! py "./hf.txt" = Some tagged_header_file.
Proof. vm_compute. repeat split. Qed.

(** The lists that the batch of this run is called with: [paths] has lost
    the header file, [files] has not. *)
Example lists_out_of_step :
  own_files_removed recursive_with_file (py "FileHeaders.py")
    (listing (py ".txt") walked).1 (listing (py ".txt") walked).2
  = ([a_txt; hf_txt; py "x.txt"], [py "./a.txt"; py "./sub/x.txt"]).
Proof. reflexivity. Qed.

(** In a run without [-r] line 111 lists the bare names, and the folder of
    a bare name is empty: [{FOLDER_NAME}] is taken out of the header and
    nothing is put in its place. *)
Example folder_name_tag_is_emptied :
  let '(r, w) :=
    file_headers top_with_tags (py "") (Scandir [a_txt]) (py "FileHeaders.py")
      (py "y") (py "y") (one_file (py "body")) in
  r = Val tt
  /\ contents <$> fs w !! a_txt = Some (py "// /a.txt" ++ nl ++ py "body").
Proof. vm_compute. repeat split. Qed.

(** ** What a run does to the files *)

Section Effects.
Context {A B : Type}.

Lemma keeps_files_ret (a : A) : keeps_files (ret a).
Proof. done. Qed.

Lemma keeps_files_raise e : keeps_files (raise e : M A).
Proof. done. Qed.

Lemma keeps_files_exit : keeps_files (sys_exit : M A).
Proof. done. Qed.

Lemma keeps_files_bind (m : M A) (k : A -> M B) :
  keeps_files m -> (forall a, keeps_files (k a)) -> keeps_files (bind m k).
Proof.
  intros Hm Hk w. unfold bind. specialize (Hm w).
  destruct (m w) as [[a| |] w']; simpl in *; [|done..].
  by rewrite Hk.
Qed.

Lemma keeps_files_try (m : M A) e (handler : M A) :
  keeps_files m -> keeps_files handler -> keeps_files (try_except m e handler).
Proof.
  intros Hm Hh w. unfold try_except. specialize (Hm w).
  destruct (m w) as [[a|e'|] w']; simpl in *; [done| |done].
  destruct (bool_decide (e' = e)); [by rewrite Hh | done].
Qed.

Lemma never_exits_ret (a : A) : never_exits (ret a).
Proof. done. Qed.

Lemma never_exits_raise e : never_exits (raise e : M A).
Proof. done. Qed.

Lemma never_exits_bind (m : M A) (k : A -> M B) :
  never_exits m -> (forall a, never_exits (k a)) -> never_exits (bind m k).
Proof.
  intros Hm Hk w. unfold bind. specialize (Hm w).
  destruct (m w) as [[a| |] w']; simpl in *; [apply Hk|done..].
Qed.

Lemma never_exits_try (m : M A) e (handler : M A) :
  never_exits m -> never_exits handler -> never_exits (try_except m e handler).
Proof.
  intros Hm Hh w. unfold try_except. specialize (Hm w).
  destruct (m w) as [[a|e'|] w']; simpl in *; [done| |done].
  destruct (bool_decide (e' = e)); [apply Hh | done].
Qed.

Lemma exit_keeps_files_of_keeps (m : M A) : keeps_files m -> exit_keeps_files m.
Proof. intros Hm w _. apply Hm. Qed.

Lemma exit_keeps_files_of_never (m : M A) : never_exits m -> exit_keeps_files m.
Proof. intros Hm w He. by apply Hm in He. Qed.

(** A run in two parts: the first leaves the files alone, the second does
    so whenever it exits. *)
Lemma exit_keeps_files_bind (m : M A) (k : A -> M B) :
  keeps_files m -> (forall a, exit_keeps_files (k a)) ->
  exit_keeps_files (bind m k).
Proof.
  intros Hm Hk w. unfold bind. specialize (Hm w).
  destruct (m w) as [[a| |] w']; simpl in *; [|done..].
  intros He. by rewrite Hk.
Qed.
End Effects.

Lemma keeps_files_print line : keeps_files (print line).
Proof. done. Qed.

Lemma keeps_files_open path update : keeps_files (open path update).
Proof.
  intros w. unfold open. destruct (fs w !! path) as [f|]; [|done].
  by destruct (readable f && (negb update || writable f)).
Qed.

Lemma keeps_files_read f : keeps_files (read f).
Proof. intros w. unfold read. by destruct (fs w !! f). Qed.

Lemma keeps_files_close f : keeps_files (close f).
Proof. done. Qed.

Lemma never_exits_print line : never_exits (print line).
Proof. done. Qed.

Lemma never_exits_open path update : never_exits (open path update).
Proof.
  intros w. unfold open. destruct (fs w !! path) as [f|]; [|done].
  by destruct (readable f && (negb update || writable f)).
Qed.

Lemma never_exits_read f : never_exits (read f).
Proof. intros w. unfold read. by destruct (fs w !! f). Qed.

Lemma never_exits_write f data : never_exits (seek0_write f data).
Proof. intros w. unfold seek0_write. by destruct (fs w !! f). Qed.

Lemma never_exits_close f : never_exits (close f).
Proof. done. Qed.

Create HintDb effects.
#[local] Hint Resolve keeps_files_ret keeps_files_raise keeps_files_exit
  keeps_files_print keeps_files_open keeps_files_read keeps_files_close
  never_exits_ret never_exits_raise never_exits_print never_exits_open
  never_exits_read never_exits_write never_exits_close : effects.

Ltac effects :=
  repeat first
    [ progress intros
    | apply keeps_files_bind | apply keeps_files_try
    | apply never_exits_bind | apply never_exits_try
    | solve [auto with effects]
    | match goal with
      | |- context [match ?x with _ => _ end] => destruct x
      end ].

Section ApplyEffects.
Variables header footer : str.
Variables files paths : list str.
Variables disable_tags detect_header : bool.

Lemma never_exits_process_file p :
  never_exits (process_file header footer files paths disable_tags detect_header p).
Proof. unfold process_file, tagged, file_name_of, insert. effects. Qed.

Lemma never_exits_for_each todo :
  never_exits (for_each header footer files paths disable_tags detect_header todo).
Proof.
  induction todo as [|p todo IH]; cbn [for_each]; [effects|].
  apply never_exits_bind; [apply never_exits_process_file | done].
Qed.

Lemma keeps_files_process_file_undetected p :
  keeps_files (process_file header footer files paths disable_tags false p).
Proof. unfold process_file, tagged, file_name_of, insert. effects. Qed.

Lemma keeps_files_for_each_undetected todo :
  keeps_files (for_each header footer files paths disable_tags false todo).
Proof.
  induction todo as [|p todo IH]; cbn [for_each]; [effects|].
  apply keeps_files_bind; [apply keeps_files_process_file_undetected | done].
Qed.
End ApplyEffects.

Lemma keeps_files_or_exit r : keeps_files (or_exit r).
Proof. unfold or_exit. effects. Qed.

Lemma keeps_files_read_header_file a g : keeps_files (read_header_file a g).
Proof. unfold read_header_file. effects; apply keeps_files_or_exit. Qed.

Lemma keeps_files_preview g : keeps_files (preview g).
Proof. unfold preview. effects. Qed.

Lemma main_exit_keeps_files a script files paths yn :
  exit_keeps_files (main a script files paths yn).
Proof.
  unfold main.
  apply exit_keeps_files_bind; [apply keeps_files_read_header_file|]. intros g1.
  apply exit_keeps_files_bind; [apply keeps_files_or_exit|]. intros g2.
  apply exit_keeps_files_bind; [apply keeps_files_or_exit|]. intros g3.
  apply exit_keeps_files_bind; [apply keeps_files_preview|]. intros _.
  destruct (declined yn); [by apply exit_keeps_files_of_keeps|].
  destruct (own_files_removed a script files paths) as [files' paths'].
  apply exit_keeps_files_of_never, never_exits_for_each.
Qed.

(** ** A file that may not be opened *)

Lemma open_denied p w f :
  fs w !! p = Some f -> readable f && writable f = false ->
  open p true w = (Exc PermissionError, w).
Proof.
  intros Hf Hperm. unfold open. rewrite Hf.
  by rewrite orb_false_l, Hperm.
Qed.

Lemma open_granted p w f :
  fs w !! p = Some f -> readable f && writable f = true ->
  open p true w = (Val p, World (fs w) (p :: open_files w) (stdout w)).
Proof.
  intros Hf Hperm. unfold open. rewrite Hf.
  by rewrite orb_false_l, Hperm.
Qed.

Lemma process_file_denied header footer files paths disable_tags detect_header p w f :
  fs w !! p = Some f -> readable f && writable f = false ->
  process_file header footer files paths disable_tags detect_header p w
  = (Val tt, printed w (skipped_line p)).
Proof.
  intros Hf Hperm. unfold process_file, bind, try_except.
  by rewrite (open_denied p w f).
Qed.

(** C8: a path whose [open] raises [PermissionError] costs one printed
    line and nothing else: the step ends normally, no file has changed, and
    the loop goes on with the paths that are left. *)
Theorem permission_error_skips_file
    header footer files paths disable_tags detect_header p rest w f :
  fs w !! p = Some f ->
  readable f && writable f = false ->
  let w' := printed w (skipped_line p) in
  process_file header footer files paths disable_tags detect_header p w = (Val tt, w')
  /\ fs w' = fs w
  /\ for_each header footer files paths disable_tags detect_header (p :: rest) w
     = for_each header footer files paths disable_tags detect_header rest w'.
Proof.
  intros Hf Hperm w'. split; [by eapply process_file_denied|]. split; [done|].
  cbn [for_each]. unfold bind at 1.
  by rewrite (process_file_denied _ _ _ _ _ _ p w f).
Qed.

Lemma permission_error_skips_file_witness :
  let w' := printed two_files (skipped_line locked_txt) in
  process_file sample_header sample_footer [locked_txt; a_txt] [locked_txt; a_txt]
    true true locked_txt two_files = (Val tt, w')
  /\ fs w' = fs two_files
  /\ for_each sample_header sample_footer [locked_txt; a_txt] [locked_txt; a_txt]
       true true [locked_txt; a_txt] two_files
     = for_each sample_header sample_footer [locked_txt; a_txt] [locked_txt; a_txt]
         true true [a_txt] w'.
Proof.
  exact (permission_error_skips_file sample_header sample_footer
           [locked_txt; a_txt] [locked_txt; a_txt] true true locked_txt [a_txt]
           two_files (File (py "keep") true false) eq_refl eq_refl).
Defined.

(** The batch of the two sample files: the locked file is reported and
    kept, the other one gets its header and footer. *)
Example batch_after_denied :
  let '(r, w) := apply_footers_and_headers sample_header sample_footer
                   [locked_txt; a_txt] [locked_txt; a_txt] true true two_files in
  r = Val tt
  /\ contents <$> fs w !! locked_txt = Some (py "keep")
  /\ contents <$> fs w !! a_txt = Some (sample_header ++ py "body" ++ sample_footer)
  /\ stdout w = [skipped_line locked_txt; added_line a_txt].
Proof. vm_compute. repeat split. Qed.

(** ** Runs without detection *)

(** C1, on the code: without [--detect_header] the file [a.txt] that holds
    [body] is reported as done and still holds [body], not
    [H\nbody\nF]. *)
Theorem undetected_run_writes_nothing :
  let '(r, w) := apply_footers_and_headers sample_header sample_footer
                   [a_txt] [a_txt] false false (one_file (py "body")) in
  r = Val tt
  /\ contents <$> fs w !! a_txt = Some (py "body")
  /\ contents <$> fs w !! a_txt <> Some (sample_header ++ py "body" ++ sample_footer)
  /\ stdout w = [added_line a_txt].
Proof. vm_compute. repeat split. discriminate. Qed.

(** The same for every input: lines 60 to 70 are all under
    [if detect_header]. *)
Lemma undetected_run_keeps_files header footer files paths disable_tags :
  keeps_files (apply_footers_and_headers header footer files paths disable_tags false).
Proof. apply keeps_files_for_each_undetected. Qed.

(** ** Detection *)

Lemma find_prefix content sub : Py.find content sub = 0 <-> Py.startswith content sub = true.
Proof.
  unfold Py.find. destruct content as [|c content].
  - rewrite first_occurrence_nil. destruct (Py.startswith [] sub); split; (done || lia).
  - rewrite first_occurrence_cons. destruct (Py.startswith (c :: content) sub).
    + split; (done || lia).
    + destruct (Py.first_occurrence content sub); simpl; split; (done || lia).
Qed.

(** What line 60 asks of a file to leave it alone. *)
Lemma detect_already_present content tagged_header tagged_footer :
  detect content tagged_header tagged_footer = AlreadyPresent
  <-> Py.startswith content tagged_header = true
      /\ Py.find content tagged_footer = Py.len content - Py.len tagged_footer
      /\ content <> [].
Proof.
  unfold detect, nonempty. rewrite <- find_prefix.
  destruct (Z.eqb_spec (Py.find content tagged_header) 0);
    destruct (Z.eqb_spec (Py.find content tagged_footer)
                (Py.len content - Py.len tagged_footer));
    case_bool_decide; simpl; repeat case_match;
    (split; [try done | by intros (? & ? & ?)]).
Qed.

(** A file that starts with the header is not taken for one without
    header and footer, as long as there is a footer to ask for. *)
Lemma detect_with_header content tagged_header tagged_footer :
  Py.startswith content tagged_header = true ->
  tagged_footer <> [] ->
  detect content tagged_header tagged_footer <> NeitherPresent.
Proof.
  intros Hstart Hfooter. apply find_prefix in Hstart.
  unfold detect, nonempty. rewrite Hstart. cbn [Z.eqb andb].
  rewrite (bool_decide_eq_false_2 _ Hfooter). cbn [negb].
  by repeat case_match.
Qed.

(** The footer test of lines 60 and 62 also holds for a text without the
    footer that is one character shorter than it: [find] gives [-1], and
    so does the difference of the lengths. *)
Example detect_short_content :
  Py.find (py "x") sample_footer = Py.len (py "x") - Py.len sample_footer
  /\ detect (py "x") sample_header sample_footer = FooterOnlyPresent.
Proof. split; reflexivity. Qed.

(** C3, on the code: the file [H\nbody] starts with the header [H\n], and
    the footer is empty, yet line 60 does not hold for it, the last branch
    is taken and the header is written once more. *)
Theorem header_only_file_not_recognised :
  let content := sample_header ++ py "body" in
  Py.startswith content sample_header = true
  /\ detect content sample_header [] = NeitherPresent
  /\ new_content content sample_header [] = Some (sample_header ++ content).
Proof. vm_compute. repeat split. Qed.

(** C2, on the code: with the header [H\n] and no footer the first run
    turns [body] into [H\nbody], and the second run turns that into
    [H\nH\nbody]. *)
Theorem second_run_repeats_header :
  let first := sample_header ++ py "body" in
  new_content (py "body") sample_header [] = Some first
  /\ new_content (Py.strip first) sample_header [] = Some (sample_header ++ first)
  /\ let '(_, w1) := apply_footers_and_headers sample_header [] [a_txt] [a_txt]
                       true true (one_file (py "body")) in
     let '(_, w2) := apply_footers_and_headers sample_header [] [a_txt] [a_txt]
                       true true w1 in
     contents <$> fs w1 !! a_txt = Some first
     /\ contents <$> fs w2 !! a_txt = Some (sample_header ++ first).
Proof. vm_compute. repeat split. Qed.

(** With both sides given and a body that does not hold the footer, the
    second run finds its own output and leaves it. *)
Example second_run_with_both_sides :
  let first := sample_header ++ py "body" ++ sample_footer in
  new_content (py "body") sample_header sample_footer = Some first
  /\ new_content (Py.strip first) sample_header sample_footer = None.
Proof. vm_compute. split; reflexivity. Qed.

(** ** Writing over a file *)

Lemma overwrite_begins_with_data old data : data `prefix_of` overwrite old data.
Proof. by apply prefix_app_r. Qed.

(** No text stays behind when the new text is at least as long as the old
    one. *)
Lemma overwrite_exact old data :
  (length old <= length data)%nat -> overwrite old data = data.
Proof. intros Hlen. unfold overwrite. by rewrite drop_ge, app_nil_r. Qed.

(** Otherwise the end of the old text stays. *)
Lemma overwrite_keeps_tail old data :
  (length data < length old)%nat ->
  length (overwrite old data) = length old /\ overwrite old data <> data.
Proof.
  intros Hlen. unfold overwrite. split.
  - rewrite length_app, length_drop. lia.
  - intros Heq. apply (f_equal length) in Heq.
    rewrite length_app, length_drop in Heq. lia.
Qed.

(** C7, on the code: the file [a.txt] holds six blanks and [xy]; the text
    to write is [H\nxy\nF], which is shorter, and after the run the file
    holds that text followed by the last two characters it had before. *)
Theorem write_leaves_old_tail :
  let text := py "      xy" in
  let written := sample_header ++ py "xy" ++ sample_footer in
  let '(_, w) := apply_footers_and_headers sample_header sample_footer
                   [a_txt] [a_txt] false true (one_file text) in
  new_content (Py.strip text) sample_header sample_footer = Some written
  /\ contents <$> fs w !! a_txt = Some (written ++ py "xy")
  /\ contents <$> fs w !! a_txt <> Some written.
Proof. vm_compute. repeat split. discriminate. Qed.

(** ** File objects that stay open *)

(** A file that line 60 accepts is opened and left through [continue]:
    nothing is printed and [close] is not called. *)
Lemma process_file_already_present header footer files paths p w f :
  fs w !! p = Some f ->
  readable f && writable f = true ->
  detect (Py.strip (contents f)) header footer = AlreadyPresent ->
  process_file header footer files paths true true p w
  = (Val tt, World (fs w) (p :: open_files w) (stdout w)).
Proof.
  intros Hf Hperm Hdetect.
  unfold process_file, bind, try_except. rewrite (open_granted p w f) by done.
  unfold ret at 1. cbn [tagged negb]. unfold ret at 1.
  unfold read. cbn [fs]. rewrite Hf.
  unfold insert, new_content. by rewrite Hdetect.
Qed.

(** On the other branches the file object is closed again. *)
Lemma process_file_written header footer files paths p w f text :
  fs w !! p = Some f ->
  readable f && writable f = true ->
  new_content (Py.strip (contents f)) header footer = Some text ->
  open_files (process_file header footer files paths true true p w).2 = open_files w.
Proof.
  intros Hf Hperm Hnew.
  unfold process_file, bind, try_except. rewrite (open_granted p w f) by done.
  unfold ret at 1. cbn [tagged negb]. unfold ret at 1.
  unfold read. cbn [fs]. rewrite Hf.
  unfold insert. rewrite Hnew. unfold bind, seek0_write. cbn [fs]. rewrite Hf.
  cbn. by rewrite bool_decide_eq_true_2.
Qed.

(** C9, on the code: [a.txt] holds [H\nbody\nF] and is run with
    detection; it is found to have header and footer, and when the loop is
    over its file object is still among the open ones. *)
Theorem already_present_file_stays_open :
  let text := sample_header ++ py "body" ++ sample_footer in
  let '(r, w) := apply_footers_and_headers sample_header sample_footer
                   [a_txt] [a_txt] false true (one_file text) in
  r = Val tt
  /\ detect (Py.strip text) sample_header sample_footer = AlreadyPresent
  /\ contents <$> fs w !! a_txt = Some text
  /\ open_files w = [a_txt].
Proof. vm_compute. repeat split. Qed.

(** ** White space and the empty check *)

Lemma isspace_nonempty s : Py.isspace s = true -> s <> [].
Proof. by destruct s. Qed.

(** What lines 172 to 200 leave of header and footer when they go on. *)
Lemma check_spec_result g g' :
  check_spec false g = Some g' ->
  header g' = cleared (header g) /\ footer g' = cleared (footer g).
Proof.
  destruct g as [h f s].
  unfold check_spec, whitespace_policy, clear_whitespace, empty_check, cleared.
  cbn [negb header footer has_header_footer].
  destruct (Py.isspace h) eqn:Hh, (Py.isspace f) eqn:Hf;
    cbn [header footer has_header_footer mbind option_bind];
    repeat (case_bool_decide || case_match || simplify_eq/= ); try done.
  all: by intros [= <-].
Qed.

(** When lines 172 to 200 end the run: the footer is empty or blank, and
    the header is empty or blank or [has_header_footer] came in as
    [HAS_FOOTER]. *)
Lemma check_spec_fails g :
  check_spec false g = None
  <-> cleared (footer g) = []
      /\ (cleared (header g) = [] \/ has_header_footer g = HAS_FOOTER).
Proof.
  destruct g as [h f s].
  unfold check_spec, whitespace_policy, clear_whitespace, empty_check, cleared.
  cbn [negb header footer has_header_footer].
  destruct (Py.isspace h) eqn:Hh, (Py.isspace f) eqn:Hf;
    cbn [header footer has_header_footer mbind option_bind];
    repeat (case_bool_decide || case_match || simplify_eq/= );
    try (apply isspace_nonempty in Hh); try (apply isspace_nonempty in Hf);
    unfold HAS_FOOTER in *; try (split; [done | intros [? [?|?]]; done || lia]);
    try (split; [intros _; split; [done | (by left) || (right; lia)] | done]).
Qed.

(** From the command line alone, [has_header_footer] is [-1] and the run
    ends exactly when both sides come out empty. *)
Lemma check_spec_command_line top bottom :
  check_spec false (Globals top bottom (-1)) = None
  <-> cleared top = [] /\ cleared bottom = [].
Proof. rewrite check_spec_fails. cbn. unfold HAS_FOOTER. intuition lia. Qed.

(** A blank header next to the footer [F]. *)
Example blank_header_is_cleared :
  check_spec false (Globals (py "   ") (py "F") (-1))
  = Some (Globals [] (py "F") HAS_FOOTER).
Proof. reflexivity. Qed.

(** C4, on the code: with [-t Top -f hf.txt], where [hf.txt] has a footer
    block of one blank and no header block, the header stays [Top],
    the blank footer is cleared, and the run ends with the message that
    neither header nor footer was given; no file has changed. *)
Theorem header_from_command_line_rejected :
  parse_header_file footer_only_file (Globals (py "Top") [] (-1))
  = Some (Globals (py "Top") (py " ") HAS_FOOTER)
  /\ whitespace_policy false (Globals (py "Top") (py " ") HAS_FOOTER) = None
  /\ cleared (py "Top") <> []
  /\ let '(r, w) := main top_and_file (py "FileHeaders.py") [hf_txt; a_txt]
                      [hf_txt; a_txt] (py "y") with_header_file in
     r = Exit
     /\ stdout w = [NO_HEADER_OR_FOOTER_MESSAGE]
     /\ fs w = fs with_header_file.
Proof. vm_compute. repeat split. discriminate. Qed.

(** ** The bit pattern generator *)

Import BitwiseTheoryParameterGenerator.

Lemma digit_no_underscore b : filter (fun c => c ≠ underscore) (digit b) = digit b.
Proof. destruct b; reflexivity. Qed.

Lemma digits_fold draw idxs : forall raw un,
  exists U,
    foldl (digits_step draw) (raw, un) idxs
    = (raw ++ flat_map (fun i => digit (draw i)) idxs, un ++ U)
    /\ filter (fun c => c ≠ underscore) U = flat_map (fun i => digit (draw i)) idxs.
Proof.
  induction idxs as [|i idxs IH]; intros raw un.
  - exists []. simpl. by rewrite !app_nil_r.
  - cbn [foldl flat_map]. unfold digits_step at 2.
    destruct (IH (raw ++ digit (draw i))
      ((if i mod 8 =? 0 then un ++ py "_" else un) ++ digit (draw i))) as (U & -> & HU).
    destruct (i mod 8 =? 0).
    + exists (py "_" ++ digit (draw i) ++ U). split.
      * by rewrite <- !app_assoc.
      * rewrite !filter_app, HU, digit_no_underscore. reflexivity.
    + exists (digit (draw i) ++ U). split.
      * by rewrite <- !app_assoc.
      * rewrite !filter_app, HU, digit_no_underscore. reflexivity.
Qed.

Lemma getitem_nat {A} (s : list A) (n : nat) : Py.getitem s (Z.of_nat n) = s !! n.
Proof.
  unfold Py.getitem. destruct (Z.ltb_spec (Z.of_nat n) 0); [lia|].
  by rewrite Nat2Z.id.
Qed.

Lemma byte_digits_slice raw a n : forall s ba,
  (a + s + n <= length raw)%nat ->
  byte_digits raw (map (fun k => Z.of_nat a + Z.of_nat k) (seq s n)) ba
  = Some (ba ++ take n (drop (a + s) raw)).
Proof.
  induction n as [|n IH]; intros s ba Hlen; simpl.
  - by rewrite app_nil_r.
  - rewrite <- Nat2Z.inj_add, getitem_nat.
    destruct (raw !! (a + s)%nat) as [c|] eqn:Hc.
    + simpl. rewrite IH by lia.
      rewrite (drop_S _ _ _ Hc). simpl.
      rewrite <- app_assoc. simpl. by rewrite Nat.add_succ_r.
    + apply lookup_ge_None in Hc. lia.
Qed.

Lemma byte_digits_range raw (a : nat) ba :
  (a + 8 <= length raw)%nat ->
  byte_digits raw (Py.range (Z.of_nat a) (Z.of_nat a + 8)) ba
  = Some (ba ++ take 8 (drop a raw)).
Proof.
  intros H. unfold Py.range.
  replace (Z.to_nat (Z.of_nat a + 8 - Z.of_nat a)) with 8%nat by lia.
  rewrite (byte_digits_slice raw a 8 0 ba) by lia.
  by rewrite Nat.add_0_r.
Qed.

Lemma chunk_drop {A} (l : list A) (k n : nat) :
  take n (drop k l) ++ drop (k + n) l = drop k l.
Proof. rewrite <- drop_drop. apply take_drop. Qed.

Lemma take8_chunks {A} (raw : list A) :
  length raw = 64%nat ->
  take 8 (drop 0 raw) ++ take 8 (drop 8 raw) ++ take 8 (drop 16 raw)
  ++ take 8 (drop 24 raw) ++ take 8 (drop 32 raw) ++ take 8 (drop 40 raw)
  ++ take 8 (drop 48 raw) ++ take 8 (drop 56 raw) = raw.
Proof.
  intros H.
  rewrite (take_ge (drop 56 raw)) by (rewrite length_drop; lia).
  rewrite (chunk_drop raw 48 8 : _ ++ drop 56 raw = _).
  rewrite (chunk_drop raw 40 8 : _ ++ drop 48 raw = _).
  rewrite (chunk_drop raw 32 8 : _ ++ drop 40 raw = _).
  rewrite (chunk_drop raw 24 8 : _ ++ drop 32 raw = _).
  rewrite (chunk_drop raw 16 8 : _ ++ drop 24 raw = _).
  rewrite (chunk_drop raw 8 8 : _ ++ drop 16 raw = _).
  apply (chunk_drop raw 0 8).
Qed.

Lemma drawn_digits_length draw : length (drawn_digits draw) = 64%nat.
Proof.
  unfold drawn_digits.
  assert (G : forall l, length (flat_map (fun i => digit (draw i)) l) = length l).
  { induction l as [|i l IH]; simpl; [done|].
    rewrite length_app, IH. by destruct (draw i). }
  by rewrite G.
Qed.

Lemma bytes_loop_step raw (i : Z) idxs ba (a : nat) :
  bits - (i + 1) * 8 = Z.of_nat a ->
  (a + 8 <= length raw)%nat ->
  bytes_loop raw (i :: idxs) ba
  = bytes_loop raw idxs ((ba ++ py ", 0b_") ++ take 8 (drop a raw)).
Proof.
  intros Ha Hlen. cbn [bytes_loop]. rewrite Ha.
  by rewrite byte_digits_range by done.
Qed.

(** C10: for every sequence of draws the script prints a literal whose
    64 digits are the drawn ones, and a byte array of eight bytes of eight
    digits; byte [i] holds the digits [64 - 8 * (i + 1)] to
    [64 - 8 * (i + 1) + 7] of the literal, so the bytes read from the last
    to the first give the digits of the literal. *)
Theorem byte_array_reverses_literal draw :
  exists literal printed_array bytes,
    generate draw = Some (literal, printed_array)
    /\ literal_digits literal = drawn_digits draw
    /\ length (literal_digits literal) = 64%nat
    /\ printed_array = Py.join (py ", ") (map (fun b => py "0b_" ++ b) bytes)
    /\ length bytes = 8%nat
    /\ (forall i, (i < 8)%nat ->
          bytes !! i = Some (take 8 (drop (64 - 8 * (i + 1)) (literal_digits literal))))
    /\ concat (reverse bytes) = literal_digits literal.
Proof.
  unfold generate, digits_loop.
  destruct (digits_fold draw (Py.range 0 bits) (py "") (py "0b")) as (U & -> & HU).
  fold (drawn_digits draw) in *.
  pose proof (drawn_digits_length draw) as Hlen.
  set (raw := drawn_digits draw) in *.
  change (py "" ++ raw) with raw.
  change (Py.range 0 (bits `div` 8)) with [0; 1; 2; 3; 4; 5; 6; 7].
  rewrite (bytes_loop_step raw 0 _ _ 56), (bytes_loop_step raw 1 _ _ 48),
    (bytes_loop_step raw 2 _ _ 40), (bytes_loop_step raw 3 _ _ 32),
    (bytes_loop_step raw 4 _ _ 24), (bytes_loop_step raw 5 _ _ 16),
    (bytes_loop_step raw 6 _ _ 8), (bytes_loop_step raw 7 _ _ 0)
    by (reflexivity || lia).
  cbn [bytes_loop mbind option_bind].
  assert (Hlit : literal_digits (py "0b" ++ U) = raw) by exact HU.
  eexists _, _, (map (fun a => take 8 (drop a raw)) [56; 48; 40; 32; 24; 16; 8; 0]%nat).
  split; [reflexivity|].
  rewrite Hlit.
  split; [reflexivity|]. split; [done|].
  split.
  { cbn [map Py.join]. rewrite <- !app_assoc. reflexivity. }
  split; [reflexivity|]. split.
  { intros i Hi. do 8 (destruct i as [|i]; [reflexivity|]). lia. }
  cbn [map reverse rev_append concat]. rewrite app_nil_r.
  by apply take8_chunks.
Qed.

Lemma byte_array_reverses_literal_witness :
  exists literal printed_array bytes,
    generate (fun i => i =? 63) = Some (literal, printed_array)
    /\ bytes !! 0%nat = Some (take 8 (drop 56 (literal_digits literal)))
    /\ bytes !! 7%nat = Some (take 8 (drop 0 (literal_digits literal)))
    /\ concat (reverse bytes) = literal_digits literal.
Proof.
  destruct (byte_array_reverses_literal (fun i => i =? 63))
    as (literal & printed_array & bytes & Hrun & _ & _ & _ & _ & Hbyte & Hall).
  exists literal, printed_array, bytes.
  split; [exact Hrun|].
  split; [apply (Hbyte 0%nat); lia|].
  split; [apply (Hbyte 7%nat); lia | exact Hall].
Defined.

(** The draws that give the number one. *)
Example generate_one :
  generate (fun i => i =? 63)
  = Some (py "0b_00000000_00000000_00000000_00000000_00000000_00000000_00000000_00000001",
          py "0b_00000001, 0b_00000000, 0b_00000000, 0b_00000000, 0b_00000000, 0b_00000000, 0b_00000000, 0b_00000000").
Proof. vm_compute. reflexivity. Qed.

(** * Further properties *)

(** ** The listing *)

(** The test of lines 121 and 124 holds exactly for the names that end
    with the extension, also for a name that is shorter than the
    extension. *)
Lemma extension_matches_suffix extension name :
  extension_matches extension name <-> extension `suffix_of` name.
Proof.
  unfold extension_matches, Py.slice_from, Py.clamp, Py.len.
  destruct (Z.ltb_spec (Z.of_nat (length name) - Z.of_nat (length extension)) 0) as [Hlt|Hge].
  - split.
    + intros Heq. apply (f_equal length) in Heq. rewrite length_drop in Heq. lia.
    + intros [k ->]. rewrite length_app in Hlt. lia.
  - rewrite Z.min_l by lia.
    replace (Z.to_nat _) with (length name - length extension)%nat by lia.
    split.
    + intros Heq. exists (take (length name - length extension) name).
      rewrite <- Heq at 2. by rewrite take_drop.
    + intros [k ->]. rewrite length_app.
      replace (length k + length extension - length extension)%nat with (length k) by lia.
      apply drop_app_length.
Qed.

Lemma filter_extension extension (names : list str) :
  filter (extension_matches extension) names
  = filter (fun n => extension `suffix_of` n) names.
Proof. apply list_filter_iff. intros n. apply extension_matches_suffix. Qed.

Lemma filter_all {A} (P : A -> Prop) `{!forall x, Decision (P x)} (l : list A) :
  (forall x, P x) -> filter P l = l.
Proof.
  intros HP. induction l as [|x l IH]; [done|].
  rewrite filter_cons_True by done. by rewrite IH.
Qed.

(** Lines 114 to 130 on a list that begins with the empty name of line
    100. *)
Lemma keep_extension_suffix extension (names : list str) :
  keep_extension extension ([] :: names)
  = if bool_decide (extension = [])
    then [] :: names
    else filter (fun n => extension `suffix_of` n) names.
Proof.
  unfold keep_extension. cbn [app Py.list_remove].
  rewrite bool_decide_eq_true_2 by done.
  rewrite filter_extension.
  case_bool_decide as Hext.
  - subst. apply filter_all. intros n. apply suffix_nil.
  - rewrite filter_cons_False; [done|].
    intros Hs. by apply suffix_nil_inv in Hs.
Qed.

(** X1: with an extension, lines 100 to 130 list the found names that end
    with it, in their order, also when a name is shorter than the
    extension; without an extension they list every name and, in front,
    the empty name that lines 100 and 101 begin with. *)
Theorem listing_keeps_extension extension s files paths :
  scanned s = ([] :: files, [] :: paths) ->
  listing extension s
  = if bool_decide (extension = [])
    then ([] :: files, [] :: paths)
    else (filter (fun n => extension `suffix_of` n) files,
          filter (fun n => extension `suffix_of` n) paths).
Proof.
  intros Hscan. unfold listing. rewrite Hscan, !keep_extension_suffix.
  by case_bool_decide.
Qed.

Lemma listing_keeps_extension_witness :
  listing (py ".c") (Walk [(py "./", [py "a.c"; py "b.h"]); (py "./sub", [py "x.c"])])
  = ([py "a.c"; py "x.c"], [py "./a.c"; py "./sub/x.c"]).
Proof.
  apply (listing_keeps_extension (py ".c")
           (Walk [(py "./", [py "a.c"; py "b.h"]); (py "./sub", [py "x.c"])])
           [py "a.c"; py "b.h"; py "x.c"] [py "./a.c"; py "./b.h"; py "./sub/x.c"]).
  reflexivity.
Defined.

Example keep_extension_py :
  keep_extension (py ".py") (map py [""; "a.py"; "b.txt"; "py"; ".py"])
  = map py ["a.py"; ".py"].
Proof. reflexivity. Qed.

(** ** White space at the ends *)

Section Strip.
Variable f : ascii -> bool.
Implicit Types s pre rest t : str.

Lemma lstrip_by_suffix s : Py.lstrip_by f s `suffix_of` s.
Proof.
  induction s as [|c s IH]; simpl; [done|].
  destruct (f c); [by apply suffix_cons_r | done].
Qed.

Lemma lstrip_by_head s c t : Py.lstrip_by f s = c :: t -> f c = false.
Proof.
  induction s as [|a s IH]; simpl; [done|].
  destruct (f a) eqn:Ha; [done|]. by intros [= <- _].
Qed.

Lemma lstrip_by_app pre c rest :
  f c = false ->
  Py.lstrip_by f (pre ++ c :: rest) = Py.lstrip_by f pre ++ c :: rest.
Proof.
  intros Hc. induction pre as [|a pre IH]; simpl; [by rewrite Hc|].
  by destruct (f a).
Qed.

Lemma rstrip_by_prefix s : Py.rstrip_by f s `prefix_of` s.
Proof.
  unfold Py.rstrip_by. destruct (lstrip_by_suffix (rev s)) as [k Hk].
  exists (rev k). apply (f_equal (@rev _)) in Hk.
  by rewrite rev_involutive, rev_app_distr in Hk.
Qed.

Lemma rstrip_by_last s t c : Py.rstrip_by f s = t ++ [c] -> f c = false.
Proof.
  unfold Py.rstrip_by. intros Heq. apply (f_equal (@rev _)) in Heq.
  rewrite rev_involutive, rev_app_distr in Heq. simpl in Heq.
  by eapply lstrip_by_head.
Qed.

Lemma rstrip_by_app pre c rest :
  f c = false ->
  Py.rstrip_by f (pre ++ c :: rest) = pre ++ c :: Py.rstrip_by f rest.
Proof.
  intros Hc. unfold Py.rstrip_by.
  rewrite rev_app_distr. simpl rev. rewrite <- app_assoc. simpl.
  rewrite lstrip_by_app by done.
  rewrite rev_app_distr. simpl rev. rewrite rev_involutive, <- app_assoc. done.
Qed.

End Strip.

(** What [strip] leaves is a part of the text. *)
Lemma strip_occurs s : occurs (Py.strip s) s.
Proof.
  unfold Py.strip.
  destruct (rstrip_by_prefix Py.char_isspace (Py.lstrip_by Py.char_isspace s)) as [post Hpost].
  destruct (lstrip_by_suffix Py.char_isspace s) as [pre Hpre].
  exists pre, post. by rewrite <- Hpost.
Qed.

(** What [strip] leaves is empty or has a first and a last character
    that are no white space. *)
Lemma strip_ends s :
  Py.strip s = []
  \/ exists c t d u,
       Py.strip s = c :: t /\ Py.char_isspace c = false
       /\ Py.strip s = u ++ [d] /\ Py.char_isspace d = false.
Proof.
  unfold Py.strip. set (l := Py.lstrip_by Py.char_isspace s).
  destruct (Py.rstrip_by Py.char_isspace l) as [|c t] eqn:Hr; [by left|].
  right. destruct (rstrip_by_prefix Py.char_isspace l) as [post Hpost].
  rewrite Hr in Hpost.
  assert (Hc : Py.char_isspace c = false)
    by (by apply (lstrip_by_head Py.char_isspace s c (t ++ post))).
  destruct (exists_last (l := c :: t) ltac:(done)) as (u & d & Hlast).
  exists c, t, d, u. repeat split; [done| |]; rewrite ?Hlast; [done|].
  apply (rstrip_by_last Py.char_isspace l u). by rewrite Hr.
Qed.

(** A text that [strip] has left is found again in what [strip] leaves of
    any text that holds it. *)
Lemma occurs_strip a b : occurs (Py.strip a) b -> occurs (Py.strip a) (Py.strip b).
Proof.
  destruct (strip_ends a) as [->|(c & t & d & u & Hhead & Hc & Hlast & Hd)].
  - intros _. by exists [], (Py.strip b).
  - intros (pre & post & ->).
    exists (Py.lstrip_by Py.char_isspace pre), (Py.rstrip_by Py.char_isspace post).
    unfold Py.strip at 1.
    assert (Hleft : Py.lstrip_by Py.char_isspace (pre ++ Py.strip a ++ post)
                    = Py.lstrip_by Py.char_isspace pre ++ Py.strip a ++ post).
    { rewrite Hhead. apply (lstrip_by_app _ pre c (t ++ post) Hc). }
    rewrite Hleft, Hlast.
    replace (Py.lstrip_by Py.char_isspace pre ++ (u ++ [d]) ++ post)
      with ((Py.lstrip_by Py.char_isspace pre ++ u) ++ d :: post)
      by (by rewrite <- !app_assoc).
    rewrite rstrip_by_app by done. by rewrite <- !app_assoc.
Qed.

Lemma occurs_trans a b c : occurs a b -> occurs b c -> occurs a c.
Proof.
  intros (p1 & q1 & ->) (p2 & q2 & ->).
  exists (p2 ++ p1), (q1 ++ q2). by rewrite <- !app_assoc.
Qed.

(** ** What a batch does and does not do *)

Lemma grown_from_refl f : grown_from f f.
Proof. repeat split; [done | apply strip_occurs]. Qed.

Lemma grown_from_trans f1 f2 f3 : grown_from f1 f2 -> grown_from f2 f3 -> grown_from f1 f3.
Proof.
  intros (Hr1 & Hw1 & Hl1 & Ho1) (Hr2 & Hw2 & Hl2 & Ho2).
  split; [congruence|]. split; [congruence|]. split; [lia|].
  eapply occurs_trans; [by apply occurs_strip | done].
Qed.

Lemma files_grown_refl w : files_grown w w.
Proof.
  intros q. destruct (fs w !! q) as [f|] eqn:Hq; [|done].
  exists f. split; [done | apply grown_from_refl].
Qed.

Lemma files_grown_same w w' : fs w' = fs w -> files_grown w w'.
Proof.
  intros Hfs q. rewrite Hfs. destruct (fs w !! q) as [f|] eqn:Hq; [|done].
  exists f. split; [done | apply grown_from_refl].
Qed.

Lemma files_grown_trans w1 w2 w3 : files_grown w1 w2 -> files_grown w2 w3 -> files_grown w1 w3.
Proof.
  intros H12 H23 q. specialize (H12 q). specialize (H23 q).
  destruct (fs w1 !! q) as [f1|].
  - destruct H12 as (f2 & Hq2 & Hg12). rewrite Hq2 in H23.
    destruct H23 as (f3 & Hq3 & Hg23). exists f3. split; [done|].
    by eapply grown_from_trans.
  - by rewrite H12 in H23.
Qed.

(** Whatever branch writes, the text it writes holds the content. *)
Lemma new_content_occurs content tagged_header tagged_footer text :
  new_content content tagged_header tagged_footer = Some text ->
  occurs content text.
Proof.
  unfold new_content.
  destruct (detect content tagged_header tagged_footer); intros [= <-].
  - exists tagged_header, []. by rewrite app_nil_r.
  - by exists [], tagged_footer.
  - by exists tagged_header, tagged_footer.
Qed.

Lemma overwrite_length old data :
  length (overwrite old data) = (length old `max` length data)%nat.
Proof. unfold overwrite. rewrite length_app, length_drop. lia. Qed.

Lemma written_file_grown p text w f opened lines :
  fs w !! p = Some f ->
  occurs (Py.strip (contents f)) text ->
  files_grown w
    (World (<[p := File (overwrite (contents f) text) (readable f) (writable f)]> (fs w))
       opened lines).
Proof.
  intros Hf Hocc q. cbn [fs].
  destruct (decide (p = q)) as [<-|Hne].
  - rewrite Hf, lookup_insert_eq. eexists. split; [done|].
    split; [done|]. split; [done|]. cbn [contents]. split.
    + rewrite overwrite_length. lia.
    + destruct Hocc as (pre & post & ->).
      exists pre, (post ++ drop (length (pre ++ Py.strip (contents f) ++ post)) (contents f)).
      unfold overwrite. by rewrite <- !app_assoc.
  - rewrite lookup_insert_ne by done.
    destruct (fs w !! q) as [g|] eqn:Hq; [|done].
    exists g. split; [done | apply grown_from_refl].
Qed.

(** The body of the loop behind a successful [open] and the tags. *)
Lemma process_file_tail detect_header p w f tagged_header tagged_footer :
  fs w !! p = Some f ->
  (text <- read p ;;
   go_on <- insert detect_header p (Py.strip text) tagged_header tagged_footer ;;
   if go_on : bool then print (added_line p) ;;; close p else ret tt)
    (World (fs w) (p :: open_files w) (stdout w))
  = match (if detect_header
           then Some (new_content (Py.strip (contents f)) tagged_header tagged_footer)
           else None) with
    | Some None => (Val tt, World (fs w) (p :: open_files w) (stdout w))
    | Some (Some text) =>
        (Val tt,
         World (<[p := File (overwrite (contents f) text) (readable f) (writable f)]> (fs w))
           (open_files w) (stdout w ++ [added_line p]))
    | None => (Val tt, World (fs w) (open_files w) (stdout w ++ [added_line p]))
    end.
Proof.
  intros Hf. unfold bind at 1. unfold read. cbn [fs]. rewrite Hf.
  unfold insert. destruct detect_header.
  - destruct (new_content (Py.strip (contents f)) tagged_header tagged_footer) as [text|].
    + unfold bind, seek0_write, ret, print, close.
      cbn [fs open_files stdout Py.list_remove]. rewrite Hf.
      cbn [fs open_files stdout Py.list_remove].
      by rewrite bool_decide_eq_true_2.
    + reflexivity.
  - unfold bind, ret, print, close. cbn [fs open_files stdout Py.list_remove].
    by rewrite bool_decide_eq_true_2.
Qed.

Section Batch.
Variables header footer : str.
Variables files paths : list str.
Variables disable_tags detect_header : bool.

(** Every way the body of the loop can end for one path. *)
Lemma process_file_outcome p w :
  let r := process_file header footer files paths disable_tags detect_header p w in
  match fs w !! p with
  | None => r = (Exc FileNotFoundError, w)
  | Some f =>
      if readable f && writable f then
        let opened := World (fs w) (p :: open_files w) (stdout w) in
        (exists e,
            (e = ValueError /\ Py.list_index paths p = None
             \/ e = IndexError
                /\ exists i, Py.list_index paths p = Some i /\ files !! i = None)
            /\ disable_tags = false
            /\ r = (Exc e, opened))
        \/ r = (Val tt, opened)
        \/ r = (Val tt, printed w (added_line p))
        \/ (exists text tagged_header tagged_footer,
              new_content (Py.strip (contents f)) tagged_header tagged_footer = Some text
              /\ r
                 = (Val tt,
                    World (<[p := File (overwrite (contents f) text)
                                   (readable f) (writable f)]> (fs w))
                      (open_files w) (stdout w ++ [added_line p])))
      else r = (Val tt, printed w (skipped_line p))
  end.
Proof.
  destruct (fs w !! p) as [f|] eqn:Hf.
  2:{ cbn zeta. unfold process_file, bind, try_except, open. by rewrite Hf. }
  destruct (readable f && writable f) eqn:Hperm.
  2:{ cbn zeta. by apply (process_file_denied _ _ _ _ _ _ p w f). }
  cbn zeta.
  remember (process_file header footer files paths disable_tags detect_header p w)
    as r eqn:Hr.
  unfold process_file in Hr.
  unfold bind at 1 in Hr. unfold try_except, bind at 1 in Hr.
  rewrite (open_granted p w f) in Hr by done. unfold ret at 1 in Hr.
  unfold bind at 1 in Hr. unfold tagged, file_name_of in Hr.
  destruct disable_tags; cbn [negb] in Hr.
  - unfold ret at 1 in Hr.
    rewrite (process_file_tail detect_header p w f) in Hr by done.
    destruct detect_header; [|by right; right; left].
    destruct (new_content _ _ _) as [text|] eqn:Hnew; [|by right; left].
    right; right; right. by exists text, header, footer.
  - destruct (Py.list_index paths p) as [i|] eqn:Hi.
    + destruct (files !! i) as [name|] eqn:Hname.
      * unfold bind at 1 in Hr. unfold ret at 1 in Hr. unfold ret at 1 in Hr.
        rewrite (process_file_tail detect_header p w f) in Hr by done.
        destruct detect_header; [|by right; right; left].
        destruct (new_content _ _ _) as [text|] eqn:Hnew; [|by right; left].
        right; right; right. by eexists text, _, _.
      * left. exists IndexError. split; [right; eauto|]. done.
    + left. exists ValueError. split; [by left|]. done.
Qed.

Lemma for_each_cons p rest w :
  for_each header footer files paths disable_tags detect_header (p :: rest) w
  = match process_file header footer files paths disable_tags detect_header
            p w with
    | (Val _, w') =>
        for_each header footer files paths disable_tags detect_header rest w'
    | (Exc e, w') => (Exc e, w')
    | (Exit, w') => (Exit, w')
    end.
Proof. reflexivity. Qed.

Lemma process_file_grows p w :
  files_grown w
    (process_file header footer files paths disable_tags detect_header p w).2.
Proof.
  pose proof (process_file_outcome p w) as Hcases.
  destruct (fs w !! p) as [f|] eqn:Hf; [|rewrite Hcases; apply files_grown_refl].
  destruct (readable f && writable f); [|rewrite Hcases; by apply files_grown_same].
  destruct Hcases as [(e & _ & _ & ->)|[->|[->|(text & th & tf & Hnew & ->)]]];
    try (by apply files_grown_same).
  apply written_file_grown; [done|]. by eapply new_content_occurs.
Qed.

Lemma process_file_frame p q w :
  p <> q ->
  fs (process_file header footer files paths disable_tags detect_header p w).2
    !! q
  = fs w !! q.
Proof.
  intros Hne. pose proof (process_file_outcome p w) as Hcases.
  destruct (fs w !! p) as [f|] eqn:Hf; [|by rewrite Hcases].
  destruct (readable f && writable f); [|by rewrite Hcases].
  destruct Hcases as [(e & _ & _ & ->)|[->|[->|(text & th & tf & Hnew & ->)]]];
    try done.
  cbn [snd fs]. by rewrite lookup_insert_ne.
Qed.

Lemma process_file_errors p w :
  let r := process_file header footer files paths disable_tags detect_header p w in
  r.1 <> Exc PermissionError /\ r.1 <> Exit.
Proof.
  pose proof (process_file_outcome p w) as Hcases.
  destruct (fs w !! p) as [f|] eqn:Hf; [|by rewrite Hcases].
  destruct (readable f && writable f); [|by rewrite Hcases].
  destruct Hcases
    as [(e & [[-> _]|[-> _]] & _ & ->)|[->|[->|(text & th & tf & Hnew & ->)]]];
    done.
Qed.
End Batch.

Section BatchTheorems.
Variables header footer : str.
Variables files paths : list str.
Variables disable_tags detect_header : bool.

Lemma for_each_grows todo w :
  files_grown w (for_each header footer files paths disable_tags detect_header todo w).2.
Proof.
  revert w. induction todo as [|p todo IH]; intros w; [apply files_grown_refl|].
  rewrite for_each_cons.
  pose proof (process_file_grows header footer files paths disable_tags detect_header p w)
    as Hstep.
  destruct (process_file _ _ _ _ _ _ p w) as [[[]|e|] w']; cbn [snd] in *; try done.
  eapply files_grown_trans; [done | apply IH].
Qed.

Lemma for_each_frame todo q w :
  q ∉ todo ->
  fs (for_each header footer files paths disable_tags detect_header todo w).2 !! q
  = fs w !! q.
Proof.
  revert w. induction todo as [|p todo IH]; intros w Hq; [done|].
  apply not_elem_of_cons in Hq as [Hne Hq].
  rewrite for_each_cons.
  pose proof (process_file_frame header footer files paths disable_tags detect_header
                p q w ltac:(done)) as Hstep.
  destruct (process_file _ _ _ _ _ _ p w) as [[[]|e|] w']; cbn [snd] in *; try done.
  by rewrite IH.
Qed.

Lemma for_each_errors todo w :
  (for_each header footer files paths disable_tags detect_header todo w).1
    <> Exc PermissionError
  /\ (for_each header footer files paths disable_tags detect_header todo w).1 <> Exit.
Proof.
  revert w. induction todo as [|p todo IH]; intros w; [done|].
  rewrite for_each_cons.
  pose proof (process_file_errors header footer files paths disable_tags detect_header p w)
    as Hstep.
  destruct (process_file _ _ _ _ _ _ p w) as [[[]|e|] w']; cbn [fst] in *;
    [apply IH | done | done].
Qed.

Lemma for_each_app todo rest w :
  for_each header footer files paths disable_tags detect_header (todo ++ rest) w
  = match for_each header footer files paths disable_tags detect_header todo w with
    | (Val _, w') => for_each header footer files paths disable_tags detect_header rest w'
    | (Exc e, w') => (Exc e, w')
    | (Exit, w') => (Exit, w')
    end.
Proof.
  revert w. induction todo as [|p todo IH]; intros w; [done|].
  rewrite <- app_comm_cons, !for_each_cons.
  destruct (process_file _ _ _ _ _ _ p w) as [[[]|e|] w']; [apply IH | done | done].
Qed.

Lemma for_each_completes todo w :
  (forall p, p ∈ todo -> is_Some (fs w !! p)) ->
  (disable_tags = true
   \/ forall p, p ∈ todo ->
        exists i, Py.list_index paths p = Some i /\ is_Some (files !! i)) ->
  (for_each header footer files paths disable_tags detect_header todo w).1 = Val tt.
Proof.
  revert w. induction todo as [|p todo IH]; intros w Hfs Htags; [done|].
  rewrite for_each_cons.
  pose proof (process_file_outcome header footer files paths disable_tags detect_header
                p w) as Hcases.
  pose proof (process_file_grows header footer files paths disable_tags detect_header
                p w) as Hgrown.
  assert (Hnext : forall w',
    process_file header footer files paths disable_tags detect_header p w = (Val tt, w') ->
    (for_each header footer files paths disable_tags detect_header todo w').1 = Val tt).
  { intros w' Hstep. rewrite Hstep in Hgrown. apply IH.
    - intros q Hq. specialize (Hgrown q). cbn [snd] in Hgrown.
      destruct (Hfs q ltac:(by right)) as [f Hf]. rewrite Hf in Hgrown.
      destruct Hgrown as (f' & -> & _). done.
    - destruct Htags as [->|Htags]; [by left|].
      right. intros q Hq. apply Htags. by right. }
  destruct (Hfs p ltac:(by left)) as [f Hf]. rewrite Hf in Hcases.
  destruct (readable f && writable f).
  - destruct Hcases as [(e & He & Hdt & Hstep)|[Hstep|[Hstep|(text & th & tf & _ & Hstep)]]];
      try (rewrite Hstep; by apply Hnext).
    exfalso. destruct Htags as [->|Htags]; [done|].
    destruct (Htags p ltac:(by left)) as (i & Hi & [name Hname]).
    destruct He as [[_ Hnone]|[_ (j & Hj & Hnone)]]; congruence.
  - rewrite Hcases. by apply Hnext.
Qed.
End BatchTheorems.

Lemma list_index_elem (l : list str) p :
  p ∈ l -> exists i, Py.list_index l p = Some i /\ (i < length l)%nat.
Proof.
  induction l as [|x l IH]; [by intros ?%elem_of_nil|].
  intros Hp. cbn [Py.list_index]. case_bool_decide as Hx.
  - exists 0%nat. split; [done | simpl; lia].
  - apply elem_of_cons in Hp as [->|Hp]; [done|].
    destruct (IH Hp) as (i & -> & Hi). exists (S i). split; [done | simpl; lia].
Qed.

(** ** Plain text *)

Lemma plain_app s t : plain (s ++ t) <-> plain s /\ plain t.
Proof. apply Forall_app. Qed.

Lemma plain_occurs sub s : occurs sub s -> plain s -> plain sub.
Proof. intros (pre & post & ->) Hs. by apply plain_app in Hs as [_ [Hsub _]%plain_app]. Qed.

Lemma plain_strip s : plain s -> plain (Py.strip s).
Proof. apply plain_occurs, strip_occurs. Qed.

Lemma plain_replace_go old new skip s :
  plain new -> plain s -> plain (Py.replace_go old new skip s).
Proof.
  intros Hnew. revert skip. induction s as [|c s IH]; intros skip Hs; [done|].
  apply Forall_cons in Hs as [Hc Hs]. cbn [Py.replace_go].
  destruct skip as [|k]; [|by apply IH].
  destruct (Py.startswith (c :: s) old).
  - apply plain_app. split; [done | by apply IH].
  - apply Forall_cons. split; [done | by apply IH].
Qed.

Lemma plain_replace s old new : plain s -> plain new -> plain (Py.replace s old new).
Proof.
  intros Hs Hnew. unfold Py.replace. destruct old as [|a old].
  - apply plain_app. split; [done|].
    induction Hs as [|c s Hc Hs IH]; [by apply Forall_nil_2|]. cbn [map concat].
    apply plain_app. split; [by apply Forall_cons | done].
  - by apply plain_replace_go.
Qed.

Lemma plain_substitute_tags text file_name folder_name :
  plain text -> plain file_name -> plain folder_name ->
  plain (substitute_tags text file_name folder_name).
Proof. intros. unfold substitute_tags. by repeat apply plain_replace. Qed.

Lemma plain_basename p : plain p -> plain (OsPath.basename p).
Proof. apply Forall_drop. Qed.

Lemma plain_dirname p : plain p -> plain (OsPath.dirname p).
Proof.
  intros Hp. unfold OsPath.dirname.
  assert (Hhead : plain (Py.slice_to p (Py.rfind p OsPath.sep + 1)))
    by by apply Forall_take.
  destruct (_ && _); [|done].
  destruct (rstrip_by_prefix (fun c => Ascii.eqb c "/"%char)
              (Py.slice_to p (Py.rfind p OsPath.sep + 1))) as [k Hk].
  rewrite Hk in Hhead. by apply plain_app in Hhead as [? _].
Qed.

Lemma plain_new_content content tagged_header tagged_footer text :
  new_content content tagged_header tagged_footer = Some text ->
  plain content -> plain tagged_header -> plain tagged_footer ->
  plain text.
Proof.
  unfold new_content. intros Hnew Hc Hh Hf.
  destruct (detect content tagged_header tagged_footer); simplify_eq;
    repeat (apply plain_app; split); done.
Qed.

Lemma plain_overwrite old data : plain old -> plain data -> plain (overwrite old data).
Proof. intros Hold Hdata. apply plain_app. split; [done | by apply Forall_drop]. Qed.

(** The tags are put in without a look at the files. *)
Lemma tagged_plain header footer files paths disable_tags p w r w' :
  tagged header footer files paths disable_tags p w = (r, w') ->
  w' = w
  /\ (plain header -> plain footer -> Forall plain files -> plain p ->
      forall th tf, r = Val (th, tf) -> plain th /\ plain tf).
Proof.
  unfold tagged, file_name_of. destruct disable_tags; cbn [negb].
  - intros [= <- <-]. split; [done|]. by intros ? ? _ _ th tf [= <- <-].
  - destruct (Py.list_index paths p) as [i|]; [|by intros [= <- <-]].
    destruct (files !! i) as [name|] eqn:Hname; [|by intros [= <- <-]].
    intros [= <- <-]. split; [done|].
    intros Hh Hf Hfiles Hp th tf [= <- <-].
    assert (plain name) by (eapply Forall_lookup_1; done).
    split; apply plain_substitute_tags; try done;
      by apply plain_basename, plain_dirname.
Qed.

(** One path leaves plain files plain. *)
Lemma process_file_plain header footer files paths disable_tags detect_header p w :
  plain header -> plain footer -> Forall plain files -> plain p ->
  plain_files w ->
  plain_files (process_file header footer files paths disable_tags detect_header p w).2.
Proof.
  intros Hh Hf Hfiles Hp Hw.
  destruct (fs w !! p) as [f|] eqn:Hfile.
  2:{ unfold process_file, bind, try_except, open. by rewrite Hfile. }
  destruct (readable f && writable f) eqn:Hperm.
  2:{ by rewrite (process_file_denied _ _ _ _ _ _ p w f). }
  unfold process_file. unfold bind at 1. unfold try_except, bind at 1.
  rewrite (open_granted p w f) by done. unfold ret at 1. unfold bind at 1.
  destruct (tagged header footer files paths disable_tags p
              (World (fs w) (p :: open_files w) (stdout w))) as [r w'] eqn:Htags.
  apply tagged_plain in Htags as [-> Hplain].
  destruct r as [[th tf]|e|]; [|done..].
  destruct (Hplain Hh Hf Hfiles Hp th tf eq_refl) as [Hth Htf].
  rewrite (process_file_tail detect_header p w f) by done.
  destruct detect_header; [|done].
  destruct (new_content _ _ _) as [text|] eqn:Hnew; [|done].
  cbn [snd]. unfold plain_files. cbn [fs].
  apply map_Forall_insert_2; [|done]. cbn [contents].
  assert (plain (contents f)) by (by apply (Hw p f)).
  apply plain_overwrite; [done|].
  eapply plain_new_content; [done | by apply plain_strip | done..].
Qed.

Lemma for_each_plain header footer files paths disable_tags detect_header todo w :
  plain header -> plain footer -> Forall plain files -> Forall plain todo ->
  plain_files w ->
  plain_files (for_each header footer files paths disable_tags detect_header todo w).2.
Proof.
  intros Hh Hf Hfiles Htodo. revert w.
  induction Htodo as [|p todo Hp Htodo IH]; intros w Hw; [done|].
  rewrite for_each_cons.
  pose proof (process_file_plain header footer files paths disable_tags detect_header
                p w Hh Hf Hfiles Hp Hw) as Hstep.
  destruct (process_file _ _ _ _ _ _ p w) as [[[]|e|] w']; cbn [snd] in *; try done.
  by apply IH.
Qed.

(** X5: a batch over plain text keeps every file.  When header, footer,
    names and paths are plain text and every file holds plain text, no
    file appears or disappears, the permissions stay, no file gets
    shorter, each file still holds its old text without the white space
    around it, and every file holds plain text again. *)
Theorem batch_keeps_content header footer files paths disable_tags detect_header w :
  plain header -> plain footer -> Forall plain files -> Forall plain paths ->
  plain_files w ->
  let w' :=
    (apply_footers_and_headers header footer files paths disable_tags detect_header w).2 in
  files_grown w w' /\ plain_files w'.
Proof.
  intros Hh Hf Hfiles Hpaths Hw. split; [apply for_each_grows|].
  by apply for_each_plain.
Qed.

Lemma batch_keeps_content_witness :
  let w' :=
    (apply_footers_and_headers sample_header sample_footer [locked_txt; a_txt]
       [locked_txt; a_txt] false true two_files).2 in
  files_grown two_files w' /\ plain_files w'.
Proof.
  apply (batch_keeps_content sample_header sample_footer [locked_txt; a_txt]
           [locked_txt; a_txt] false true two_files); unfold plain_files, plain; decided.
Defined.

(** X4: a batch changes no file outside [paths]. *)
Theorem batch_changes_listed_files_only
    header footer files paths disable_tags detect_header q w :
  q ∉ paths ->
  fs (apply_footers_and_headers header footer files paths disable_tags detect_header w).2
    !! q
  = fs w !! q.
Proof. apply for_each_frame. Qed.

Lemma batch_changes_listed_files_only_witness :
  fs (apply_footers_and_headers sample_header sample_footer [a_txt] [a_txt] true true
        two_files).2 !! locked_txt
  = fs two_files !! locked_txt.
Proof.
  apply (batch_changes_listed_files_only sample_header sample_footer [a_txt] [a_txt]
           true true locked_txt two_files).
  decided.
Defined.

(** X6: no batch ends in [PermissionError] or in [sys.exit()]. *)
Theorem batch_never_ends_in_permission_error
    header footer files paths disable_tags detect_header w :
  (apply_footers_and_headers header footer files paths disable_tags detect_header w).1
    <> Exc PermissionError
  /\ (apply_footers_and_headers header footer files paths disable_tags detect_header w).1
     <> Exit.
Proof. apply for_each_errors. Qed.

(** X7: when every listed path is a file, and either the tags are disabled
    or [files] is as long as [paths], the batch ends normally. *)
Theorem batch_completes header footer files paths disable_tags detect_header w :
  (forall p, p ∈ paths -> is_Some (fs w !! p)) ->
  (disable_tags = true \/ (length paths <= length files)%nat) ->
  (apply_footers_and_headers header footer files paths disable_tags detect_header w).1
  = Val tt.
Proof.
  intros Hfs Htags. apply for_each_completes; [done|].
  destruct Htags as [->|Hlen]; [by left|]. right. intros p Hp.
  destruct (list_index_elem paths p Hp) as (i & Hi & Hlt).
  exists i. split; [done|]. apply lookup_lt_is_Some. lia.
Qed.

Lemma batch_completes_witness :
  (apply_footers_and_headers sample_header sample_footer [locked_txt; a_txt]
     [locked_txt; a_txt] false true two_files).1 = Val tt.
Proof.
  apply batch_completes.
  - intros p Hp. rewrite !elem_of_cons, elem_of_nil in Hp.
    destruct Hp as [->|[->|[]]]; vm_compute; by eexists.
  - right. simpl. lia.
Defined.

(** X8: a listed path that is no file ends the batch with
    [FileNotFoundError]: the paths before it have been dealt with, the
    paths behind it are not touched. *)
Theorem missing_path_stops_batch
    header footer files paths disable_tags detect_header todo p rest w w1 :
  fs w !! p = None ->
  for_each header footer files paths disable_tags detect_header todo w = (Val tt, w1) ->
  for_each header footer files paths disable_tags detect_header (todo ++ p :: rest) w
  = (Exc FileNotFoundError, w1).
Proof.
  intros Hp Htodo. rewrite for_each_app, Htodo, for_each_cons.
  pose proof (for_each_grows header footer files paths disable_tags detect_header todo w p)
    as Hgrown.
  rewrite Htodo, Hp in Hgrown. cbn [snd] in Hgrown.
  pose proof (process_file_outcome header footer files paths disable_tags detect_header
                p w1) as Hcases.
  rewrite Hgrown in Hcases. by rewrite Hcases.
Qed.

Lemma missing_path_stops_batch_witness :
  for_each sample_header sample_footer [] [] true true [py "gone.txt"; a_txt]
    (one_file (py "body"))
  = (Exc FileNotFoundError, one_file (py "body")).
Proof.
  apply (missing_path_stops_batch sample_header sample_footer [] [] true true
           [] (py "gone.txt") [a_txt] (one_file (py "body")) (one_file (py "body")));
    reflexivity.
Defined.

(** X9: with tags enabled, a path whose place in [paths] is behind the end
    of [files] ends the batch with [IndexError]; its file is opened, left
    as it is and not closed. *)
Theorem short_files_list_raises header footer files paths detect_header p i w f :
  fs w !! p = Some f ->
  readable f && writable f = true ->
  Py.list_index paths p = Some i ->
  (length files <= i)%nat ->
  process_file header footer files paths false detect_header p w
  = (Exc IndexError, World (fs w) (p :: open_files w) (stdout w)).
Proof.
  intros Hf Hperm Hi Hlen.
  unfold process_file, bind, try_except. rewrite (open_granted p w f) by done.
  unfold ret at 1. unfold tagged, file_name_of. cbn [negb].
  rewrite Hi, (lookup_ge_None_2 files i) by done. reflexivity.
Qed.

Lemma short_files_list_raises_witness :
  process_file sample_header sample_footer [] [a_txt] false true a_txt (one_file (py "body"))
  = (Exc IndexError,
     World (fs (one_file (py "body"))) [a_txt] []).
Proof.
  apply (short_files_list_raises sample_header sample_footer [] [a_txt] true a_txt 0%nat
           (one_file (py "body")) (File (py "body") true true)); reflexivity.
Defined.

(** X24: a text without tags is written as it is, whatever the names. *)
Theorem text_without_tags_is_kept text file_name folder_name :
  Py.find text FILE_NAME_TAG = -1 ->
  Py.find text FOLDER_NAME_TAG = -1 ->
  apply_tags text file_name folder_name false = text.
Proof.
  intros Hfile Hfolder. unfold apply_tags, substitute_tags. cbn [negb].
  rewrite (replace_absent text FILE_NAME_TAG) by done.
  by apply replace_absent.
Qed.

Lemma text_without_tags_is_kept_witness :
  apply_tags (py "// (c) me {2024}") a_txt (py "src") false = py "// (c) me {2024}".
Proof. apply text_without_tags_is_kept; reflexivity. Defined.

(** X25: a file of plain text that is written and is not longer than the
    new text holds the new text and nothing else, which is plain text
    again when header and footer are; the file is closed and reported. *)
Theorem long_enough_text_replaces_file header footer files paths p w f text :
  fs w !! p = Some f ->
  readable f && writable f = true ->
  plain header -> plain footer -> plain (contents f) ->
  new_content (Py.strip (contents f)) header footer = Some text ->
  (length (contents f) <= length text)%nat ->
  process_file header footer files paths true true p w
  = (Val tt,
     World (<[p := File text (readable f) (writable f)]> (fs w))
       (open_files w) (stdout w ++ [added_line p]))
  /\ plain text.
Proof.
  intros Hf Hperm Hh Hfoot Hplain Hnew Hlen. split.
  - unfold process_file. unfold bind at 1. unfold try_except, bind at 1.
    rewrite (open_granted p w f) by done. unfold ret at 1.
    unfold bind at 1. cbn [tagged negb]. unfold ret at 1.
    rewrite (process_file_tail true p w f) by done.
    by rewrite Hnew, overwrite_exact.
  - eapply plain_new_content; [done | by apply plain_strip | done..].
Qed.

Lemma long_enough_text_replaces_file_witness :
  process_file sample_header sample_footer [a_txt] [a_txt] true true a_txt
    (one_file (py "body"))
  = (Val tt,
     World (<[a_txt := File (sample_header ++ py "body" ++ sample_footer) true true]>
              (fs (one_file (py "body"))))
       [] [added_line a_txt])
  /\ plain (sample_header ++ py "body" ++ sample_footer).
Proof.
  apply (long_enough_text_replaces_file sample_header sample_footer [a_txt] [a_txt]
           a_txt (one_file (py "body")) (File (py "body") true true));
    try reflexivity; try (unfold plain; decided).
Defined.

(** ** The whole script *)

Lemma discard_cons_ne x y (l : list str) : x <> y -> discard (x :: l) y = x :: discard l y.
Proof.
  intros Hne. unfold discard, Py.contains. cbn [Py.list_remove].
  rewrite (bool_decide_eq_false_2 (x = y)) by done.
  destruct (decide (y ∈ l)) as [Hin|Hout].
  - rewrite !bool_decide_eq_true_2; [done | done | by right].
  - rewrite !bool_decide_eq_false_2; [done | done |].
    intros [->|?]%elem_of_cons; done.
Qed.

Lemma discard_cons_eq x (l : list str) : discard (x :: l) x = l.
Proof.
  unfold discard, Py.contains. rewrite bool_decide_eq_true_2 by left.
  cbn [Py.list_remove]. by rewrite bool_decide_eq_true_2.
Qed.

Lemma list_remove_sublist (l : list str) x : Py.list_remove l x `sublist_of` l.
Proof.
  induction l as [|y l IH]; [done|]. cbn [Py.list_remove].
  case_bool_decide; [by apply sublist_cons | by apply sublist_skip].
Qed.

Lemma discard_sublist (l : list str) x : discard l x `sublist_of` l.
Proof. unfold discard. destruct (Py.contains l x); [apply list_remove_sublist | done]. Qed.

(** [list.remove] takes out the one occurrence of a list without
    repetition. *)
Lemma list_remove_NoDup (l : list str) x : NoDup l -> x ∉ Py.list_remove l x.
Proof.
  induction 1 as [|y l Hy Hl IH]; [by intros ?%elem_of_nil|].
  cbn [Py.list_remove]. case_bool_decide as Hxy; [by subst|].
  intros [->|Hin]%elem_of_cons; [done | by apply IH].
Qed.

Lemma discard_NoDup (l : list str) x : NoDup l -> x ∉ discard l x.
Proof.
  intros Hl. unfold discard, Py.contains. case_bool_decide; [|done].
  by apply list_remove_NoDup.
Qed.

Lemma join_nonempty a b : b <> [] -> OsPath.join a b <> [].
Proof.
  intros Hb. unfold OsPath.join.
  destruct (Py.startswith b OsPath.sep); [done|].
  destruct (bool_decide (a = []) || Py.startswith (rev a) OsPath.sep).
  - intros [_ ?]%app_eq_nil. done.
  - intros [_ H]%app_eq_nil. done.
Qed.

Lemma keeps_files_print_all lines : keeps_files (print_all lines).
Proof. induction lines as [|l lines IH]; cbn [print_all]; effects. Qed.

Lemma keeps_file_of_keeps {A} (m : M A) q : keeps_files m -> keeps_file q m.
Proof. intros Hm w. by rewrite Hm. Qed.

Lemma keeps_file_bind {A B} (m : M A) (k : A -> M B) q :
  keeps_files m -> (forall a, keeps_file q (k a)) -> keeps_file q (bind m k).
Proof.
  intros Hm Hk w. unfold bind. specialize (Hm w).
  destruct (m w) as [[a| |] w']; simpl in *; [|by rewrite Hm..].
  by rewrite Hk, Hm.
Qed.

(** A run in two parts does not end normally and changes no file, when
    its first part changes none and its second part does neither. *)
Lemma bind_halts {A} (m : M A) (k : A -> M unit) w :
  keeps_files m ->
  (forall a w', fs w' = fs w -> (k a w').1 <> Val tt /\ fs (k a w').2 = fs w) ->
  (bind m k w).1 <> Val tt /\ fs (bind m k w).2 = fs w.
Proof.
  intros Hm Hk. unfold bind. specialize (Hm w).
  destruct (m w) as [[a| |] w']; cbn [fst snd] in *; [by apply Hk | done | done].
Qed.

(** X10: whenever the script ends in [sys.exit()], at either question, for
    a missing header file or for a missing header and footer, no file has
    changed. *)
Theorem exit_leaves_files_untouched a extension s script yn1 yn2 w :
  (file_headers a extension s script yn1 yn2 w).1 = Exit ->
  fs (file_headers a extension s script yn1 yn2 w).2 = fs w.
Proof.
  revert w. change (exit_keeps_files (file_headers a extension s script yn1 yn2)).
  unfold file_headers. destruct (listing extension s) as [files paths].
  apply exit_keeps_files_bind; [apply keeps_files_print_all|]. intros _.
  destruct (declined yn1); [by apply exit_keeps_files_of_keeps|].
  apply main_exit_keeps_files.
Qed.

Lemma exit_leaves_files_untouched_witness :
  fs (file_headers top_and_file (py ".txt") (Scandir [hf_txt; a_txt]) (py "FileHeaders.py")
        (py "y") (py "y") with_header_file).2
  = fs with_header_file.
Proof.
  apply exit_leaves_files_untouched. vm_compute. reflexivity.
Defined.

(** X11: an answer other than [y], [Y] or the empty line to either question
    ends the run without a change to any file. *)
Theorem declined_run_changes_nothing a extension s script yn1 yn2 w :
  declined yn1 = true \/ declined yn2 = true ->
  (file_headers a extension s script yn1 yn2 w).1 <> Val tt
  /\ fs (file_headers a extension s script yn1 yn2 w).2 = fs w.
Proof.
  intros Hyn. unfold file_headers. destruct (listing extension s) as [files paths].
  apply bind_halts; [apply keeps_files_print_all|]. intros _ w0 H0.
  destruct (declined yn1); [done|]. destruct Hyn as [|Hyn]; [done|].
  unfold main. rewrite Hyn. rewrite <- H0.
  apply bind_halts; [apply keeps_files_read_header_file|]. intros g1 w1 H1.
  rewrite <- H1.
  apply bind_halts; [apply keeps_files_or_exit|]. intros g2 w2 H2. rewrite <- H2.
  apply bind_halts; [apply keeps_files_or_exit|]. intros g3 w3 H3. rewrite <- H3.
  apply bind_halts; [apply keeps_files_preview|]. intros _ w4 H4. done.
Qed.

Lemma declined_run_changes_nothing_witness :
  fs (file_headers (Args false true true (py "H") (py "F") (py "./") (py ""))
        (py "") (Scandir [a_txt]) (py "FileHeaders.py") (py "y") (py "no")
        (one_file (py "body"))).2
  = fs (one_file (py "body")).
Proof.
  apply declined_run_changes_nothing. right. reflexivity.
Defined.

(** X12: a header file that is named and missing ends the run at once with
    one printed line. *)
Theorem missing_header_file_ends_run a script files paths yn w :
  header_file a <> [] ->
  fs w !! header_file a = None ->
  main a script files paths yn w
  = (Exit, printed w (py "file " ++ header_file a ++ py " not found.")).
Proof.
  intros Hname Hmissing. unfold main, bind at 1, read_header_file, nonempty.
  rewrite (bool_decide_eq_false_2 _ Hname). cbn [negb].
  unfold bind at 1, try_except, open. by rewrite Hmissing.
Qed.

Lemma missing_header_file_ends_run_witness :
  main top_and_file (py "FileHeaders.py") [a_txt] [a_txt] (py "y") (one_file (py "body"))
  = (Exit, printed (one_file (py "body")) (py "file hf.txt not found.")).
Proof.
  apply (missing_header_file_ends_run top_and_file); [done | reflexivity].
Defined.

Lemma scanned_head s : exists files paths, scanned s = ([] :: files, [] :: paths).
Proof. destruct s; simpl; eauto. Qed.

(** With a header file named and no extension given, the empty path of
    lines 100 and 101 comes through lines 114 to 130 and 224 to 240. *)
Lemma own_files_removed_keeps_empty_path a script files paths :
  header_file a <> [] -> script <> [] ->
  exists rest, (own_files_removed a script files ([] :: paths)).2 = [] :: rest.
Proof.
  intros Hhf Hscript. unfold own_files_removed. cbn [snd].
  rewrite (discard_cons_ne [] script) by done.
  rewrite (discard_cons_ne [] (header_file a)) by done.
  rewrite (discard_cons_ne [] (OsPath.join (directory a) script))
    by (intros Heq; by apply (join_nonempty (directory a) script Hscript)).
  rewrite (discard_cons_ne [] (OsPath.join (directory a) (header_file a)))
    by (intros Heq; by apply (join_nonempty (directory a) (header_file a) Hhf)).
  by eexists.
Qed.

(** X2: with a header file ([-f]) and without an extension ([-e]) the run
    never ends normally and never changes a file: the empty path that
    lines 100 to 130 leave in [paths] is the first one to be opened. *)
Theorem header_file_needs_extension a s script yn1 yn2 w :
  header_file a <> [] ->
  script <> [] ->
  fs w !! [] = None ->
  (file_headers a [] s script yn1 yn2 w).1 <> Val tt
  /\ fs (file_headers a [] s script yn1 yn2 w).2 = fs w.
Proof.
  intros Hhf Hscript Hnone. unfold file_headers, listing.
  destruct (scanned_head s) as (files & paths & ->).
  rewrite !keep_extension_suffix. cbn [bool_decide decide_rel].
  rewrite bool_decide_eq_true_2 by done.
  apply bind_halts; [apply keeps_files_print_all|]. intros _ w0 H0.
  destruct (declined yn1); [done|].
  unfold main. rewrite <- H0.
  apply bind_halts; [apply keeps_files_read_header_file|]. intros g1 w1 H1.
  rewrite <- H1.
  apply bind_halts; [apply keeps_files_or_exit|]. intros g2 w2 H2. rewrite <- H2.
  apply bind_halts; [apply keeps_files_or_exit|]. intros g3 w3 H3. rewrite <- H3.
  apply bind_halts; [apply keeps_files_preview|]. intros _ w4 H4.
  destruct (declined yn2); [done|].
  destruct (own_files_removed_keeps_empty_path a script ([] :: files) paths Hhf Hscript)
    as [rest Hrest].
  destruct (own_files_removed a script ([] :: files) ([] :: paths)) as [files' paths'].
  cbn [snd] in Hrest. subst paths'.
  unfold apply_footers_and_headers. rewrite for_each_cons.
  pose proof (process_file_outcome (header (add_newlines g3)) (footer (add_newlines g3))
                files' ([] :: rest) (arg_disable_tags a) (arg_detect_header a) [] w4)
    as Hcases.
  rewrite H4, H3, H2, H1, H0, Hnone in Hcases. rewrite Hcases.
  split; [done|]. cbn [snd]. congruence.
Qed.

Lemma header_file_needs_extension_witness :
  let a := Args false true true (py "") (py "") (py "./") hf_txt in
  let w := World {[ hf_txt := File header_only_file true true;
                    a_txt := File (py "body") true true ]} [] [] in
  (file_headers a [] (Scandir [hf_txt; a_txt]) (py "FileHeaders.py") (py "y") (py "y") w).1
    <> Val tt
  /\ fs (file_headers a [] (Scandir [hf_txt; a_txt]) (py "FileHeaders.py") (py "y")
           (py "y") w).2 = fs w.
Proof.
  apply (header_file_needs_extension
           (Args false true true (py "") (py "") (py "./") hf_txt));
    [done | done | reflexivity].
Defined.

(** The same run ends in [FileNotFoundError]. *)
Example header_file_without_extension :
  (file_headers (Args false true true (py "") (py "") (py "./") hf_txt) []
     (Scandir [hf_txt; a_txt]) (py "FileHeaders.py") (py "y") (py "y")
     (World {[ hf_txt := File header_only_file true true;
               a_txt := File (py "body") true true ]} [] [])).1
  = Exc FileNotFoundError.
Proof. vm_compute. reflexivity. Qed.

(** With the extension [.txt] it gives [a.txt] its header. *)
Example header_file_with_extension :
  let '(r, w) :=
    file_headers (Args false true true (py "") (py "") (py "./") hf_txt) (py ".txt")
      (Scandir [hf_txt; a_txt]) (py "FileHeaders.py") (py "y") (py "y")
      (World {[ hf_txt := File header_only_file true true;
                a_txt := File (py "body") true true ]} [] []) in
  r = Val tt
  /\ contents <$> fs w !! a_txt
     = Some (py "line one" ++ nl ++ py "line two" ++ nl ++ py "body")
  /\ contents <$> fs w !! hf_txt = Some header_only_file.
Proof. vm_compute. repeat split. Qed.

Lemma discard_keeps_out (l : list str) x y : y ∉ l -> y ∉ discard l x.
Proof. intros Hy Hin. apply Hy. eapply elem_of_sublist; [done | apply discard_sublist]. Qed.

Lemma discard_keeps_NoDup (l : list str) x : NoDup l -> NoDup (discard l x).
Proof. intros Hl. eapply sublist_NoDup; [done | apply discard_sublist]. Qed.

(** The paths that lines 230 to 240 name are out of a list without
    repetition. *)
Lemma own_files_removed_out a script files paths q :
  NoDup paths ->
  q ∈ [script; header_file a; OsPath.join (directory a) script;
       OsPath.join (directory a) (header_file a)] ->
  q ∉ (own_files_removed a script files paths).2.
Proof.
  intros Hpaths Hq. unfold own_files_removed. cbn [snd].
  rewrite !elem_of_cons, elem_of_nil in Hq.
  destruct Hq as [->|[->|[->|[->|[]]]]].
  - do 3 apply discard_keeps_out. by apply discard_NoDup.
  - do 2 apply discard_keeps_out. by apply discard_NoDup, discard_keeps_NoDup.
  - apply discard_keeps_out. by apply discard_NoDup; do 2 apply discard_keeps_NoDup.
  - by apply discard_NoDup; do 3 apply discard_keeps_NoDup.
Qed.

Lemma filter_out_absent (l : list str) x : x ∉ l -> filter (fun y => y <> x) l = l.
Proof.
  induction l as [|y l IH]; [done|]. intros [Hne Hl]%not_elem_of_cons.
  rewrite filter_cons_True by done. by rewrite IH.
Qed.

(** On a list without repetition, taking out [x] leaves the entries other
    than [x]. *)
Lemma discard_filter (l : list str) x :
  NoDup l -> discard l x = filter (fun y => y <> x) l.
Proof.
  intros Hl. unfold discard, Py.contains. case_bool_decide as Hx.
  - clear Hx. induction Hl as [|y l Hy Hl IH]; [done|].
    cbn [Py.list_remove]. case_bool_decide as Hyx.
    + subst y. rewrite filter_cons_False by (intros Hne; by apply Hne).
      by rewrite filter_out_absent.
    + rewrite filter_cons_True by done. by rewrite IH.
  - by rewrite filter_out_absent.
Qed.

(** X13: lines 230 to 240 compare the entries of [paths] as strings: from
    a listing without repetition they take out exactly the entries equal
    to the script's name, to the name of the header file, or to one of
    the two joined to the directory.  Every other entry stays in its
    place in the order, also one that names the header file in another
    spelling. *)
Theorem own_paths_are_taken_out a script files paths :
  NoDup paths ->
  (own_files_removed a script files paths).2
  = filter (fun p => p ∉ [script; header_file a;
                          OsPath.join (directory a) script;
                          OsPath.join (directory a) (header_file a)]) paths.
Proof.
  intros Hpaths. unfold own_files_removed. cbn [snd].
  rewrite !discard_filter by (repeat apply discard_keeps_NoDup; done).
  rewrite !list_filter_filter. apply list_filter_iff. intros p.
  rewrite !not_elem_of_cons. pose proof (not_elem_of_nil p). tauto.
Qed.

Lemma own_paths_are_taken_out_witness :
  (own_files_removed (Args false false true [] [] (py "./") (py "./hf.txt"))
     (py "FileHeaders.py") [py "FileHeaders.py"; hf_txt; a_txt]
     [py "FileHeaders.py"; hf_txt; a_txt]).2
  = filter (fun p => p ∉ [py "FileHeaders.py"; py "./hf.txt";
                          OsPath.join (py "./") (py "FileHeaders.py");
                          OsPath.join (py "./") (py "./hf.txt")])
      [py "FileHeaders.py"; hf_txt; a_txt].
Proof.
  apply (own_paths_are_taken_out (Args false false true [] [] (py "./") (py "./hf.txt"))).
  decided.
Defined.

(** The header file named as [./hf.txt] stays in a listing that has it as
    [hf.txt]. *)
Example header_file_in_other_spelling :
  (own_files_removed (Args false false true [] [] (py "./") (py "./hf.txt"))
     (py "FileHeaders.py") [py "FileHeaders.py"; hf_txt; a_txt]
     [py "FileHeaders.py"; hf_txt; a_txt]).2
  = [hf_txt; a_txt].
Proof. reflexivity. Qed.

Lemma print_all_value lines w :
  exists w', print_all lines w = (Val tt, w') /\ fs w' = fs w.
Proof.
  revert w. induction lines as [|l lines IH]; intros w; [by eexists|].
  cbn [print_all]. unfold bind, print. cbn [fs].
  destruct (IH (World (fs w) (open_files w) (stdout w ++ [l]))) as (w' & -> & Hfs).
  by exists w'.
Qed.

Lemma preview_value g w : exists w', preview g w = (Val tt, w') /\ fs w' = fs w.
Proof. unfold preview. repeat case_match; by eexists. Qed.

(** A run without header file whose header and footer pass the checks and
    whose second question is answered with yes comes to the batch with the
    files as they were. *)
Lemma main_reaches_batch a script files paths yn g w :
  header_file a = [] ->
  check_spec (whitespace a) (Globals (top a) (bottom a) (-1)) = Some g ->
  declined yn = false ->
  exists w',
    fs w' = fs w
    /\ main a script files paths yn w
       = (let '(files', paths') := own_files_removed a script files paths in
          apply_footers_and_headers (header (add_newlines g)) (footer (add_newlines g))
            files' paths' (arg_disable_tags a) (arg_detect_header a)) w'.
Proof.
  intros Hhf Hcheck Hyn. unfold main, read_header_file, nonempty.
  rewrite Hhf, Hyn. cbn [bool_decide decide_rel negb].
  rewrite bool_decide_eq_true_2 by done. cbn [negb].
  unfold check_spec in Hcheck.
  destruct (whitespace_policy (whitespace a) (Globals (top a) (bottom a) (-1)))
    as [g2|] eqn:Hws; [|done].
  cbn [mbind option_bind] in Hcheck.
  unfold bind at 1. unfold ret at 1. unfold bind at 1. rewrite Hws.
  unfold or_exit at 1, ret at 1. unfold bind at 1. rewrite Hcheck.
  unfold or_exit at 1, ret at 1. unfold bind at 1.
  destruct (preview_value g w) as (w' & -> & Hfs).
  by exists w'.
Qed.

(** X3: a run from the command line alone over the names of one directory
    ends normally: no header file, header and footer that pass the checks,
    names that are files, and yes to both questions. *)
Theorem command_line_run_completes a extension names script yn1 yn2 g w :
  header_file a = [] ->
  script <> [] ->
  [] ∉ names ->
  (forall n, n ∈ names -> is_Some (fs w !! n)) ->
  check_spec (whitespace a) (Globals (top a) (bottom a) (-1)) = Some g ->
  declined yn1 = false ->
  declined yn2 = false ->
  (file_headers a extension (Scandir names) script yn1 yn2 w).1 = Val tt.
Proof.
  intros Hhf Hscript Hnames Hfs Hcheck Hyn1 Hyn2.
  unfold file_headers, listing, scanned. cbn [app].
  set (L := keep_extension extension ([] :: names)).
  unfold bind at 1. destruct (print_all_value L w) as (w0 & -> & H0).
  rewrite Hyn1.
  destruct (main_reaches_batch a script L L yn2 g w0 Hhf Hcheck Hyn2) as (w1 & H1 & ->).
  unfold own_files_removed. rewrite Hhf.
  set (P2 := discard (discard L script) []).
  assert (HP2 : forall p, p ∈ P2 -> p ∈ names).
  { subst P2 L. rewrite keep_extension_suffix. case_bool_decide as Hext.
    - rewrite discard_cons_ne by done. rewrite discard_cons_eq.
      intros p Hp. eapply elem_of_sublist; [done | apply discard_sublist].
    - intros p Hp.
      assert (Hin : p ∈ filter (fun n => extension `suffix_of` n) names).
      { eapply elem_of_sublist; [exact Hp|].
        etransitivity; apply discard_sublist. }
      by apply list_elem_of_filter in Hin as [_ ?]. }
  set (P4 := discard (discard P2 _) _).
  assert (HP4 : P4 `sublist_of` P2) by (etransitivity; apply discard_sublist).
  apply for_each_completes.
  - intros p Hp. rewrite H1, H0. apply Hfs, HP2. by eapply elem_of_sublist.
  - right. intros p Hp.
    destruct (list_index_elem P4 p Hp) as (i & Hi & Hlt).
    exists i. split; [done|]. apply lookup_lt_is_Some.
    apply sublist_length in HP4. lia.
Qed.

Lemma command_line_run_completes_witness :
  (file_headers (Args false false true (py "H") (py "F") (py "./") []) []
     (Scandir [locked_txt; a_txt]) (py "FileHeaders.py") (py "y") [] two_files).1
  = Val tt.
Proof.
  apply (command_line_run_completes
           (Args false false true (py "H") (py "F") (py "./") []) []
           [locked_txt; a_txt] (py "FileHeaders.py") (py "y") []
           (Globals (py "H") (py "F") HAS_HEADER_AND_FOOTER));
    try reflexivity; try done.
  - decided.
  - intros n Hn. rewrite !elem_of_cons, elem_of_nil in Hn.
    destruct Hn as [->|[->|[]]]; vm_compute; by eexists.
Defined.

(** X14: when lines 172 to 200 let the run go on, header or footer is not
    empty; and for a run from the command line alone the two texts are the
    given ones, blank ones cleared unless [-w] is set, and
    [has_header_footer] tells which of them are there. *)
Theorem check_spec_state whitespace :
  (forall g g', check_spec whitespace g = Some g' -> header g' <> [] \/ footer g' <> [])
  /\ (forall top bottom g',
        check_spec whitespace (Globals top bottom (-1)) = Some g' ->
        header g' = (if whitespace then top else cleared top)
        /\ footer g' = (if whitespace then bottom else cleared bottom)
        /\ has_header_footer g'
           = if bool_decide (header g' = []) then HAS_FOOTER
             else if bool_decide (footer g' = []) then HAS_HEADER
             else HAS_HEADER_AND_FOOTER).
Proof.
  split.
  - intros [h f s] g'.
    unfold check_spec, whitespace_policy, clear_whitespace, empty_check.
    destruct whitespace; cbn [negb header footer has_header_footer mbind option_bind].
    + repeat (case_bool_decide || case_match || simplify_eq/= ); try done;
        intros [= <-]; cbn; tauto.
    + destruct (Py.isspace h) eqn:Hh, (Py.isspace f) eqn:Hf;
        cbn [header footer has_header_footer mbind option_bind];
        repeat (case_bool_decide || case_match || simplify_eq/= ); try done;
        intros [= <-]; cbn; tauto.
  - intros h f g'.
    unfold check_spec, whitespace_policy, clear_whitespace, empty_check, cleared.
    destruct whitespace; cbn [negb header footer has_header_footer mbind option_bind].
    + repeat (case_bool_decide || case_match || simplify_eq/= ); try done;
        intros [= <-]; cbn; repeat case_bool_decide; done.
    + destruct (Py.isspace h) eqn:Hh, (Py.isspace f) eqn:Hf;
        cbn [header footer has_header_footer mbind option_bind];
        repeat (case_bool_decide || case_match || simplify_eq/= ); try done;
        intros [= <-]; cbn; repeat case_bool_decide; done.
Qed.

Lemma check_spec_state_witness :
  header (Globals [] (py "F") HAS_FOOTER) = cleared (py "   ")
  /\ footer (Globals [] (py "F") HAS_FOOTER) = cleared (py "F")
  /\ has_header_footer (Globals [] (py "F") HAS_FOOTER) = HAS_FOOTER.
Proof.
  apply (proj2 (check_spec_state false) (py "   ") (py "F")). reflexivity.
Defined.

(** X15: lines 172 to 200 end the run exactly when the footer is empty
    (or blank, without [-w]) and the header is empty (or blank) or
    [has_header_footer] has come in as [HAS_FOOTER]. *)
Theorem check_spec_rejects whitespace g :
  let kept := fun s => if whitespace : bool then s else cleared s in
  check_spec whitespace g = None
  <-> kept (footer g) = []
      /\ (kept (header g) = [] \/ has_header_footer g = HAS_FOOTER).
Proof.
  destruct whitespace; cbn zeta; [|apply check_spec_fails].
  destruct g as [h f s].
  unfold check_spec, whitespace_policy, empty_check.
  cbn [negb header footer has_header_footer mbind option_bind].
  repeat (case_bool_decide || case_match || simplify_eq/= );
    unfold HAS_FOOTER in *; try (split; [done | intros [? [?|?]]; done || lia]);
    try (split; [intros _; split; [done | (by left) || (right; lia)] | done]).
Qed.

(** ** The folder of a path *)

(** [paths.index] gives a place that holds the path. *)
Lemma list_index_lookup (l : list str) p :
  p ∈ l -> exists i, Py.list_index l p = Some i /\ l !! i = Some p.
Proof.
  induction l as [|x l IH]; [by intros ?%elem_of_nil|].
  intros Hp. cbn [Py.list_index]. case_bool_decide as Hx.
  - exists 0%nat. by subst.
  - apply elem_of_cons in Hp as [->|Hp]; [done|].
    destruct (IH Hp) as (i & -> & Hi). by exists (S i).
Qed.


Lemma startswith_sep s : Py.startswith s OsPath.sep = true <-> exists t, s = slash :: t.
Proof.
  rewrite startswith_prefix. change OsPath.sep with [slash].
  split; intros [t ->]; by exists t.
Qed.

Lemma last_occurrence_absent name : slash ∉ name -> Py.last_occurrence name OsPath.sep = None.
Proof.
  induction name as [|c name IH]; intros Hc; [done|].
  cbn [Py.last_occurrence]. rewrite IH by (intros ?; apply Hc; by right).
  destruct (Py.startswith (c :: name) OsPath.sep) eqn:E; [|done].
  apply startswith_sep in E as [t [= -> _]]. exfalso. apply Hc. left.
Qed.

Lemma last_occurrence_behind d name :
  slash ∉ name ->
  Py.last_occurrence (d ++ slash :: name) OsPath.sep = Some (length d).
Proof.
  intros Hc. induction d as [|c d IH].
  - cbn [app Py.last_occurrence]. rewrite last_occurrence_absent by done.
    by rewrite (proj2 (startswith_sep (slash :: name))) by eauto.
  - cbn [app Py.last_occurrence length]. by rewrite IH.
Qed.

Lemma slice_to_0 (s : str) : Py.slice_to s 0 = [].
Proof.
  unfold Py.slice_to, Py.clamp, Py.len. cbn [Z.ltb Z.compare].
  by rewrite Z.min_l by lia.
Qed.

(** X16: a path without a slash, as line 111 lists it, has the empty
    folder name, and in a listing of such names the file name is the path:
    [{FOLDER_NAME}] is taken out and [{FILE_NAME}] gives the path. *)
Theorem tags_of_flat_listing header footer (names : list str) p w :
  p ∈ names ->
  slash ∉ p ->
  OsPath.basename (OsPath.dirname p) = []
  /\ tagged header footer names names false p w
     = (Val (substitute_tags header p [], substitute_tags footer p []), w).
Proof.
  intros Hin Hp.
  assert (Hfolder : OsPath.basename (OsPath.dirname p) = []).
  { unfold OsPath.dirname, Py.rfind.
    rewrite last_occurrence_absent by done.
    change (-1 + 1) with 0. rewrite slice_to_0. reflexivity. }
  split; [done|].
  destruct (list_index_lookup names p Hin) as (i & Hi & Hlookup).
  unfold tagged, file_name_of. cbn [negb]. rewrite Hi, Hlookup.
  unfold bind, ret. by rewrite Hfolder.
Qed.

Lemma tags_of_flat_listing_witness :
  tagged (py "// {FILE_NAME} in {FOLDER_NAME}.") [] [a_txt] [a_txt] false a_txt
    (one_file [])
  = (Val (py "// a.txt in .", []), one_file []).
Proof.
  apply (proj2 (tags_of_flat_listing (py "// {FILE_NAME} in {FOLDER_NAME}.") []
                  [a_txt] a_txt (one_file []) ltac:(decided) ltac:(decided))).
Defined.

Lemma lstrip_by_all f (s : str) : Forall (fun c => f c = true) s -> Py.lstrip_by f s = [].
Proof. induction 1 as [|c s Hc _ IH]; simpl; [done|]. by rewrite Hc. Qed.

Lemma rstrip_by_all f (s : str) : Forall (fun c => f c = true) s -> Py.rstrip_by f s = [].
Proof.
  intros Hs. unfold Py.rstrip_by. rewrite lstrip_by_all; [done|].
  by apply Forall_rev.
Qed.

Lemma rstrip_by_snoc f (s : str) c :
  f c = true -> Py.rstrip_by f (s ++ [c]) = Py.rstrip_by f s.
Proof.
  intros Hc. unfold Py.rstrip_by. rewrite rev_app_distr. simpl. by rewrite Hc.
Qed.

Lemma slashes_all n : Forall (fun c => is_slash c = true) (concat (replicate n OsPath.sep)).
Proof. induction n as [|n IH]; simpl; [done|]. by constructor. Qed.

Lemma slice_to_app (x y : str) : Py.slice_to (x ++ y) (Py.len x) = x.
Proof.
  unfold Py.slice_to, Py.clamp, Py.len. rewrite length_app.
  destruct (Z.ltb_spec (Z.of_nat (length x)) 0); [lia|].
  rewrite Z.min_l by lia. by rewrite Nat2Z.id, take_app_length.
Qed.

Lemma slice_from_app (x y : str) : Py.slice_from (x ++ y) (Py.len x) = y.
Proof.
  unfold Py.slice_from, Py.clamp, Py.len. rewrite length_app.
  destruct (Z.ltb_spec (Z.of_nat (length x)) 0); [lia|].
  rewrite Z.min_l by lia. by rewrite Nat2Z.id, drop_app_length.
Qed.

(** A path [x/name] is cut behind its last slash. *)
Lemma path_cut x name :
  slash ∉ name ->
  OsPath.basename (x ++ slash :: name) = name
  /\ Py.slice_to (x ++ slash :: name) (Py.rfind (x ++ slash :: name) OsPath.sep + 1)
     = x ++ [slash].
Proof.
  intros Hname. unfold OsPath.basename, Py.rfind.
  rewrite last_occurrence_behind by done.
  replace (Z.of_nat (length x) + 1) with (Py.len (x ++ [slash]))
    by (unfold Py.len; rewrite length_app; simpl; lia).
  replace (x ++ slash :: name) with ((x ++ [slash]) ++ name)
    by (by rewrite <- app_assoc).
  by rewrite slice_from_app, slice_to_app.
Qed.

(** X17: for a file that [os.walk] finds in the directory [d],
    [{FILE_NAME}] is its name and [{FOLDER_NAME}] is the last part of [d],
    the slashes at the end of [d] aside. *)
Theorem folder_of_walked_file d name :
  slash ∉ name ->
  Py.rstrip_by is_slash d <> [] ->
  OsPath.basename (OsPath.join d name) = name
  /\ OsPath.basename (OsPath.dirname (OsPath.join d name))
     = OsPath.basename (Py.rstrip_by is_slash d).
Proof.
  intros Hname Hd.
  assert (Hjoin : exists x, OsPath.join d name = x ++ slash :: name
                            /\ Py.rstrip_by is_slash (x ++ [slash]) = Py.rstrip_by is_slash d).
  { unfold OsPath.join.
    destruct (Py.startswith name OsPath.sep) eqn:Hstart.
    { apply startswith_sep in Hstart as [t ->]. exfalso. apply Hname. left. }
    destruct (bool_decide (d = [])) eqn:Hnil.
    { apply bool_decide_eq_true in Hnil as ->. done. }
    cbn [orb]. destruct (Py.startswith (rev d) OsPath.sep) eqn:Hend.
    - apply startswith_sep in Hend as [t Ht].
      apply (f_equal (@rev _)) in Ht. rewrite rev_involutive in Ht. simpl in Ht.
      exists (rev t). subst d. split; [by rewrite <- app_assoc | done].
    - exists d. split; [done|]. by apply rstrip_by_snoc. }
  destruct Hjoin as (x & -> & Hstrip).
  destruct (path_cut x name Hname) as [Hbase Hhead].
  split; [done|]. unfold OsPath.dirname. rewrite Hhead.
  rewrite (bool_decide_eq_false_2 (x ++ [slash] = []))
    by (intros [_ ?]%app_eq_nil; done).
  rewrite bool_decide_eq_false_2.
  - cbn [negb andb]. by rewrite <- Hstrip.
  - intros Hall. apply Hd. rewrite <- Hstrip, Hall.
    apply rstrip_by_all, slashes_all.
Qed.

Lemma folder_of_walked_file_witness :
  OsPath.basename (OsPath.join (py "./src") (py "a.txt")) = py "a.txt"
  /\ OsPath.basename (OsPath.dirname (OsPath.join (py "./src") (py "a.txt")))
     = py "src".
Proof.
  apply (folder_of_walked_file (py "./src") (py "a.txt")); [decided | done].
Defined.

(** The top directory [./] of the default gives the folder name [.]. *)
Example folder_of_top_directory :
  OsPath.basename (OsPath.dirname (OsPath.join (py "./") (py "a.txt"))) = py ".".
Proof. reflexivity. Qed.

(** ** A second run *)

(** [strip] leaves a text that begins and ends with other characters
    than white space. *)
Lemma strip_fixed c t d u :
  Py.char_isspace c = false -> Py.char_isspace d = false ->
  c :: t = u ++ [d] ->
  Py.strip (c :: t) = c :: t.
Proof.
  intros Hc Hd Heq. unfold Py.strip. cbn [Py.lstrip_by]. rewrite Hc, Heq.
  rewrite (rstrip_by_app Py.char_isspace u d []) by done. reflexivity.
Qed.

(** A text in which [sub] is first met [length sub] characters before the
    end ends with [sub]. *)
Lemma find_at_end s sub :
  (length sub <= length s)%nat ->
  Py.find s sub = Py.len s - Py.len sub ->
  sub `suffix_of` s.
Proof.
  intros Hlen. unfold Py.find, Py.len.
  destruct (Py.first_occurrence s sub) as [i|] eqn:Hi; [|lia].
  intros Hpos. destruct (first_occurrence_Some _ _ _ Hi) as (_ & Hat & _).
  apply startswith_prefix in Hat as [r Hr].
  assert (r = []) as ->.
  { apply (f_equal length) in Hr. rewrite length_drop, length_app in Hr.
    apply length_zero_iff_nil. lia. }
  exists (take i s). rewrite app_nil_r in Hr. by rewrite <- Hr, take_drop.
Qed.

(** What is written begins with the header. *)
Lemma new_content_starts content tagged_header tagged_footer text :
  new_content content tagged_header tagged_footer = Some text ->
  tagged_header `prefix_of` text.
Proof.
  unfold new_content, detect.
  destruct (Z.eqb_spec (Py.find content tagged_header) 0) as [Hstart|];
    repeat case_match; intros [= <-]; try (by apply prefix_app_r).
  all: apply find_prefix, startswith_prefix in Hstart; by apply prefix_app_r.
Qed.

(** With a header, what is written is at least as long as the footer. *)
Lemma new_content_length content tagged_header tagged_footer text :
  new_content content tagged_header tagged_footer = Some text ->
  tagged_header <> [] ->
  (length tagged_footer <= length text)%nat.
Proof.
  intros Hnew Hh. unfold new_content, detect in Hnew.
  assert (Hfind : Py.find content tagged_footer >= -1)
    by (unfold Py.find; destruct (Py.first_occurrence _ _); lia).
  assert (Hhead : (1 <= length tagged_header)%nat)
    by (destruct tagged_header; [done | simpl; lia]).
  unfold Py.len in Hnew.
  destruct (Z.eqb_spec (Py.find content tagged_footer)
              (Z.of_nat (length content) - Z.of_nat (length tagged_footer)));
    repeat case_match; simplify_eq/=; rewrite ?length_app; lia.
Qed.

(** The text that a run wrote is found by the next run, when the header
    begins and the footer ends with a character that is no white space
    and the footer is not met in the text before its end. *)
Lemma written_text_is_detected content tagged_header tagged_footer text c h d u :
  new_content content tagged_header tagged_footer = Some text ->
  tagged_header = c :: h -> Py.char_isspace c = false ->
  tagged_footer = u ++ [d] -> Py.char_isspace d = false ->
  Py.find text tagged_footer = Py.len text - Py.len tagged_footer ->
  Py.strip text = text
  /\ new_content (Py.strip text) tagged_header tagged_footer = None.
Proof.
  intros Hnew Hh Hc Hf Hd Hfind.
  pose proof (new_content_starts _ _ _ _ Hnew) as [rest Hrest].
  assert (Hlen : (length tagged_footer <= length text)%nat)
    by (eapply new_content_length; [done | by subst]).
  pose proof (find_at_end _ _ Hlen Hfind) as [front Hfront].
  assert (Hstrip : Py.strip text = text).
  { rewrite Hrest, Hh. apply (strip_fixed c (h ++ rest) d (front ++ u)); [done..|].
    rewrite app_comm_cons, <- Hh, <- Hrest, Hfront, Hf. by rewrite app_assoc. }
  split; [done|]. rewrite Hstrip.
  unfold new_content.
  rewrite (proj2 (detect_already_present text tagged_header tagged_footer)); [done|].
  split; [apply startswith_prefix; by exists rest|]. split; [done|].
  rewrite Hrest, Hh. done.
Qed.

(** Lines 48 to 55 do not look at the files. *)
Lemma tagged_any_world header footer files paths disable_tags p w v r w' :
  tagged header footer files paths disable_tags p w = (r, w') ->
  tagged header footer files paths disable_tags p v = (r, v).
Proof.
  unfold tagged, file_name_of. destruct disable_tags; cbn [negb].
  - by intros [= <- <-].
  - destruct (Py.list_index paths p) as [i|]; [|by intros [= <- <-]].
    destruct (files !! i) as [name|]; by intros [= <- <-].
Qed.

(** The body of the loop for a file that is opened and whose tags are
    found. *)
Lemma process_file_tagged
    header footer files paths disable_tags detect_header p w f tagged_header tagged_footer :
  fs w !! p = Some f ->
  readable f && writable f = true ->
  tagged header footer files paths disable_tags p w
  = (Val (tagged_header, tagged_footer), w) ->
  process_file header footer files paths disable_tags detect_header p w
  = match (if detect_header
           then Some (new_content (Py.strip (contents f)) tagged_header tagged_footer)
           else None) with
    | Some None => (Val tt, World (fs w) (p :: open_files w) (stdout w))
    | Some (Some text) =>
        (Val tt,
         World (<[p := File (overwrite (contents f) text) (readable f) (writable f)]> (fs w))
           (open_files w) (stdout w ++ [added_line p]))
    | None => (Val tt, World (fs w) (open_files w) (stdout w ++ [added_line p]))
    end.
Proof.
  intros Hf Hperm Htags.
  unfold process_file. unfold bind at 1. unfold try_except, bind at 1.
  rewrite (open_granted p w f) by done. unfold ret at 1. unfold bind at 1.
  rewrite (tagged_any_world _ _ _ _ _ _ _
             (World (fs w) (p :: open_files w) (stdout w)) _ _ Htags).
  by apply process_file_tail.
Qed.

(** X19: a second run leaves a file of plain text as the first run wrote
    it, when the first run wrote a text that is not shorter than the file
    was, the header begins and the footer ends with a character that is no
    white space, and the footer is not met in the written text before its
    end: the file then holds the written text and nothing else, and the
    second run writes nothing. *)
Theorem second_run_leaves_output
    header footer files paths disable_tags p w f tagged_header tagged_footer text c h d u :
  fs w !! p = Some f ->
  readable f && writable f = true ->
  plain (contents f) -> plain tagged_header -> plain tagged_footer ->
  tagged header footer files paths disable_tags p w
  = (Val (tagged_header, tagged_footer), w) ->
  new_content (Py.strip (contents f)) tagged_header tagged_footer = Some text ->
  (length (contents f) <= length text)%nat ->
  tagged_header = c :: h -> Py.char_isspace c = false ->
  tagged_footer = u ++ [d] -> Py.char_isspace d = false ->
  Py.find text tagged_footer = Py.len text - Py.len tagged_footer ->
  let once := process_file header footer files paths disable_tags true p w in
  let twice := process_file header footer files paths disable_tags true p once.2 in
  fs once.2 = <[p := File text (readable f) (writable f)]> (fs w)
  /\ plain text
  /\ twice.1 = Val tt
  /\ fs twice.2 = fs once.2.
Proof.
  intros Hf Hperm Hplain Hth Htf Htags Hnew Hlen Hh Hc Hfoot Hd Hfind.
  destruct (written_text_is_detected _ _ _ _ _ _ _ _ Hnew Hh Hc Hfoot Hd Hfind)
    as [_ Hagain].
  cbn zeta.
  rewrite (process_file_tagged _ _ _ _ _ true p w f tagged_header tagged_footer)
    by done.
  rewrite Hnew, overwrite_exact by done. cbn [snd].
  split; [done|].
  split; [eapply plain_new_content; [done | by apply plain_strip | done..]|].
  set (w1 := World _ _ _).
  rewrite (process_file_tagged _ _ _ _ _ true p w1 (File text (readable f) (writable f))
             tagged_header tagged_footer).
  - cbn [contents]. by rewrite Hagain.
  - apply lookup_insert_eq.
  - done.
  - apply (tagged_any_world _ _ _ _ _ _ w w1 _ w Htags).
Qed.

Lemma second_run_leaves_output_witness :
  let once :=
    process_file (py "// {FILE_NAME}" ++ nl) sample_footer [a_txt] [a_txt] false true
      a_txt (one_file (py "body")) in
  let twice :=
    process_file (py "// {FILE_NAME}" ++ nl) sample_footer [a_txt] [a_txt] false true
      a_txt once.2 in
  fs once.2
  = <[a_txt := File (py "// a.txt" ++ nl ++ py "body" ++ sample_footer) true true]>
      (fs (one_file (py "body")))
  /\ plain (py "// a.txt" ++ nl ++ py "body" ++ sample_footer)
  /\ twice.1 = Val tt
  /\ fs twice.2 = fs once.2.
Proof.
  apply (second_run_leaves_output (py "// {FILE_NAME}" ++ nl) sample_footer [a_txt]
           [a_txt] false a_txt (one_file (py "body")) (File (py "body") true true)
           (py "// a.txt" ++ nl) sample_footer
           (py "// a.txt" ++ nl ++ py "body" ++ sample_footer)
           "/"%char (py "/ a.txt" ++ nl) "F"%char nl);
    try reflexivity; try (unfold plain; decided).
Defined.

(** ** Detection at its edges *)

(** X20: without a footer no file is found to have the header: the last
    branch is taken for every content and the header is written in front
    on every run. *)
Theorem header_alone_is_never_detected content tagged_header :
  detect content tagged_header [] = NeitherPresent
  /\ new_content content tagged_header [] = Some (tagged_header ++ content).
Proof.
  assert (Hdetect : detect content tagged_header [] = NeitherPresent).
  { unfold detect, nonempty. change (Py.find content []) with
      (match Py.first_occurrence content [] with Some i => Z.of_nat i | None => -1 end).
    assert (Py.first_occurrence content [] = Some 0%nat) as -> by (by destruct content).
    change (Py.len []) with 0. rewrite Z.sub_0_r. unfold Py.len.
    destruct content as [|c content].
    - cbn. by rewrite !andb_false_r.
    - replace (Z.of_nat 0 =? Z.of_nat (length (c :: content))) with false
        by (symmetry; apply Z.eqb_neq; simpl; lia).
      cbn. by rewrite !andb_false_r. }
  split; [done|]. unfold new_content. rewrite Hdetect. by rewrite app_nil_r.
Qed.

(** X21: a content without the footer that is one character shorter than
    the footer passes the footer test of lines 60 and 62, so that no
    footer is written. *)
Theorem short_content_gets_no_footer content tagged_header tagged_footer :
  Py.find content tagged_footer = -1 ->
  length tagged_footer = S (length content) ->
  content <> [] ->
  tagged_header <> [] ->
  new_content content tagged_header tagged_footer
  = if Py.startswith content tagged_header then None
    else Some (tagged_header ++ content).
Proof.
  intros Hfind Hlen Hc Hh. unfold new_content, detect, nonempty, Py.len.
  rewrite Hfind, Hlen.
  replace (-1 =? Z.of_nat (length content) - Z.of_nat (S (length content))) with true
    by (symmetry; apply Z.eqb_eq; lia).
  rewrite (bool_decide_eq_false_2 _ Hc), (bool_decide_eq_false_2 _ Hh). cbn [negb andb].
  destruct (Py.startswith content tagged_header) eqn:Hstart.
  - apply find_prefix in Hstart as ->. reflexivity.
  - destruct (Z.eqb_spec (Py.find content tagged_header) 0) as [H0|]; [|done].
    apply find_prefix in H0. congruence.
Qed.

Lemma short_content_gets_no_footer_witness :
  new_content (py "x") sample_header sample_footer = Some (sample_header ++ py "x").
Proof.
  apply (short_content_gets_no_footer (py "x") sample_header sample_footer);
    (reflexivity || done).
Defined.

(** ** More on the header file *)

(** X22: line 150 and line 155 leave out one character behind the start
    marker and one before the end marker, whatever they are. *)
Theorem between_drops_two_characters content start_tag end_tag pre x text y post :
  content = pre ++ start_tag ++ [x] ++ text ++ [y] ++ end_tag ++ post ->
  Py.index content start_tag = Some (Py.len pre) ->
  Py.index content end_tag = Some (Py.len (pre ++ start_tag ++ [x] ++ text ++ [y])) ->
  between content start_tag end_tag = Some text.
Proof.
  intros -> Hi Hj. unfold between. rewrite Hi, Hj. cbn [mbind option_bind]. f_equal.
  etransitivity;
    [|apply (slice_middle (pre ++ start_tag ++ [x]) text ([y] ++ end_tag ++ post))].
  f_equal.
  - by rewrite <- !app_assoc.
  - unfold Py.len. rewrite !length_app. cbn [length]. clear. lia.
  - unfold Py.len. rewrite !length_app. cbn [length]. clear. lia.
Qed.

Lemma between_drops_two_characters_witness :
  between (py ">>>HEADER_START<<<(c) me>>>HEADER_END<<<") HEADER_START_TAG HEADER_END_TAG
  = Some (py "c) m").
Proof.
  apply (between_drops_two_characters _ _ _ [] "("%char (py "c) m") "e"%char []);
    reflexivity.
Defined.

Lemma between_Some content start_tag end_tag text :
  between content start_tag end_tag = Some text ->
  markers_present content start_tag end_tag.
Proof.
  unfold between, markers_present.
  destruct (Py.index content start_tag) as [i|] eqn:Hi; [|done].
  destruct (Py.index content end_tag) as [j|] eqn:Hj; [|done].
  intros _. eauto using index_Some.
Qed.

(** X23: after the header file has been read, [has_header_footer] tells
    which blocks it had. *)
Theorem parse_header_file_state content top bottom g :
  parse_header_file content (Globals top bottom (-1)) = Some g ->
  let has_header := markers_present content HEADER_START_TAG HEADER_END_TAG in
  let has_footer := markers_present content FOOTER_START_TAG FOOTER_END_TAG in
  (has_header_footer g = HAS_HEADER_AND_FOOTER <-> has_header /\ has_footer)
  /\ (has_header_footer g = HAS_HEADER <-> has_header /\ ~ has_footer)
  /\ (has_header_footer g = HAS_FOOTER <-> ~ has_header /\ has_footer).
Proof.
  rewrite parse_header_file_cases.
  destruct (between content HEADER_START_TAG HEADER_END_TAG) as [h|] eqn:Hh;
    destruct (between content FOOTER_START_TAG FOOTER_END_TAG) as [f|] eqn:Hf;
    intros [= <-]; cbn [has_header_footer];
    repeat match goal with
      | H : between _ _ _ = Some _ |- _ => apply between_Some in H
      | H : between _ _ _ = None |- _ => apply (proj1 (between_None _ _ _)) in H
      end;
    unfold HAS_HEADER_AND_FOOTER, HAS_HEADER, HAS_FOOTER;
    cbn zeta; intuition (try done; try lia).
Qed.

Lemma parse_header_file_state_witness :
  has_header_footer (Globals (py "Top") (py " ") HAS_FOOTER) = HAS_FOOTER
  <-> ~ markers_present footer_only_file HEADER_START_TAG HEADER_END_TAG
      /\ markers_present footer_only_file FOOTER_START_TAG FOOTER_END_TAG.
Proof.
  apply (parse_header_file_state footer_only_file (py "Top") []). reflexivity.
Defined.

(** ** The generated pair as numbers *)

Lemma binary_value_from n digits :
  foldl (fun n c => 2 * n + (if Ascii.eqb c "1"%char then 1 else 0)) n digits
  = n * 2 ^ Z.of_nat (length digits) + binary_value digits.
Proof.
  unfold binary_value. revert n.
  induction digits as [|c digits IH]; intros n; [simpl; lia|].
  cbn [foldl length]. rewrite IH, (IH (2 * 0 + _)).
  rewrite Nat2Z.inj_succ, Z.pow_succ_r by lia. lia.
Qed.

Lemma binary_value_app a b :
  binary_value (a ++ b) = binary_value a * 2 ^ Z.of_nat (length b) + binary_value b.
Proof. unfold binary_value at 1. rewrite foldl_app. apply binary_value_from. Qed.

Lemma binary_value_bounds digits :
  0 <= binary_value digits < 2 ^ Z.of_nat (length digits).
Proof.
  induction digits as [|c digits IH] using rev_ind; [simpl; unfold binary_value; simpl; lia|].
  rewrite binary_value_app, length_app. cbn [length].
  replace (Z.of_nat (length digits + 1)) with (Z.succ (Z.of_nat (length digits))) by lia.
  rewrite Z.pow_succ_r by lia.
  assert (Hc : 0 <= binary_value [c] <= 1)
    by (unfold binary_value; cbn [foldl]; destruct (Ascii.eqb c "1"); lia).
  lia.
Qed.

(** What the script prints, in terms of the drawn digits. *)
Lemma generate_result draw :
  exists U,
    filter (fun c => c <> underscore) U = drawn_digits draw
    /\ generate draw
       = Some (py "0b" ++ U,
               Py.join (py ", ")
                 (map (fun a => py "0b_" ++ take 8 (drop a (drawn_digits draw)))
                    [56; 48; 40; 32; 24; 16; 8; 0]%nat)).
Proof.
  unfold generate, digits_loop.
  destruct (digits_fold draw (Py.range 0 bits) (py "") (py "0b")) as (U & -> & HU).
  fold (drawn_digits draw) in *.
  pose proof (drawn_digits_length draw) as Hlen.
  set (raw := drawn_digits draw) in *.
  change (py "" ++ raw) with raw.
  change (Py.range 0 (bits `div` 8)) with [0; 1; 2; 3; 4; 5; 6; 7].
  rewrite (bytes_loop_step raw 0 _ _ 56), (bytes_loop_step raw 1 _ _ 48),
    (bytes_loop_step raw 2 _ _ 40), (bytes_loop_step raw 3 _ _ 32),
    (bytes_loop_step raw 4 _ _ 24), (bytes_loop_step raw 5 _ _ 16),
    (bytes_loop_step raw 6 _ _ 8), (bytes_loop_step raw 7 _ _ 0)
    by (reflexivity || lia).
  exists U. split; [done|].
  cbn [bytes_loop mbind option_bind map Py.join]. rewrite <- !app_assoc. reflexivity.
Qed.

(** X18: the two printed values are one number: the byte array, read with
    the lowest byte first, is the binary literal, and every byte is below
    256. *)
Theorem byte_array_is_little_endian draw :
  exists literal printed_array bytes,
    generate draw = Some (literal, printed_array)
    /\ printed_array = Py.join (py ", ") (map (fun b => py "0b_" ++ b) bytes)
    /\ Forall (fun b => 0 <= binary_value b < 256) bytes
    /\ binary_value (literal_digits literal) = little_endian (map binary_value bytes).
Proof.
  destruct (generate_result draw) as (U & HU & Hgen).
  pose proof (drawn_digits_length draw) as Hlen.
  set (raw := drawn_digits draw) in *.
  eexists (py "0b" ++ U), _,
    (map (fun a => take 8 (drop a raw)) [56; 48; 40; 32; 24; 16; 8; 0]%nat).
  split; [exact Hgen|]. split; [reflexivity|].
  assert (Hbyte : forall a, (a + 8 <= 64)%nat ->
            length (take 8 (drop a raw)) = 8%nat)
    by (intros a Ha; rewrite length_take, length_drop; lia).
  split.
  - cbn [map]. repeat constructor;
      match goal with
      | |- _ <= binary_value ?b =>
          pose proof (binary_value_bounds b) as Hb; rewrite Hbyte in Hb by lia; lia
      | |- binary_value ?b < _ =>
          pose proof (binary_value_bounds b) as Hb; rewrite Hbyte in Hb by lia;
          change (2 ^ Z.of_nat 8) with 256 in Hb; lia
      end.
  - change (literal_digits (py "0b" ++ U)) with (filter (fun c => c <> underscore) U).
    rewrite HU. rewrite <- (take8_chunks raw Hlen) at 1.
    rewrite !binary_value_app, !length_app, !Hbyte by lia.
    cbn [map little_endian]. lia.
Qed.
